(** * AuthContext: the authentication provider of the front end

    A shallow embedding of [AuthContext.tsx]: the session store ([user]),
    the token storage it reads, and the coordinator operations
    [updateUserFromToken], [login], [forceLogin], [register] and [logout].

    Every operation of the source is an [async] function that talks to
    collaborators (the auth API client, the push-token provider, the toast
    surface, [window.confirm], the console).  The embedding is a state and
    exception monad over a [World]: the world holds the stored credential,
    the React state and a chronological trace of every observable
    interaction; the answers of the collaborators come from an [Env].

    Requests to the API client and to the push-token provider may be
    rejected, and the caller's callbacks may throw; what is thrown is an
    error object.  The toast surface, the console, the token storage and
    the React state setters return normally. *)

From stdpp Require Import base option strings list gmap.
From Stdlib Require Import ZArith.

Open Scope string_scope.
Open Scope list_scope.

(** ** Data model *)

(** Modelled from the spec: the [User] type of [@/types/auth], an identity
    record with an identifier and display attributes.  The provider never
    looks inside it. *)
Record User := mkUser {
  user_id : string;
  user_nickname : string;
}.

(** Modelled from the spec: [FormErrors] of [RegistrationForm.types], a
    mapping from field name to message. *)
Abbreviation FormErrors := (gmap string string).

(** Modelled from the spec: [RegisterRequest] of [@/types/auth], with the
    fields [register] reads (email, password, nickname, optional profile
    image); the image file is kept by name. *)
Record RegisterRequest := mkRegisterRequest {
  form_email : string;
  form_password : string;
  form_nickname : string;
  form_profileImage : option string;
}.

(** Modelled from the spec: the payload of [authAPI.login] and
    [authAPI.forceLogin], [{loggedIn, accessToken?, message?}]. *)
Record LoginData := mkLoginData {
  loggedIn : bool;
  accessToken : option string;
  message : option string;
}.

(** Modelled from the spec: the payload of [authAPI.register],
    [{success, accessToken?, message?, errors?}]. *)
Record RegisterData := mkRegisterData {
  success : bool;
  reg_accessToken : option string;
  reg_message : option string;
  reg_errors : option FormErrors;
}.

(** What a rejected request carries: [error.response?.status] and
    [error.response?.data] with its [message] and [errors]. *)
Record ErrorData := mkErrorData {
  err_message : option string;
  err_errors : option FormErrors;
}.

Record ErrorResponse := mkErrorResponse {
  status : option Z;
  err_data : option ErrorData;
}.

(** A thrown value is an error object; only an HTTP error has a
    [response].  A [TypeError] raised by the code itself has none. *)
Record JsError := mkJsError {
  response : option ErrorResponse;
}.

Definition TypeError : JsError := mkJsError None.

(** The entries appended to a [FormData]. *)
Inductive FormValue :=
| JsonBlob (fields : list (string * string)) (mime : string)
| FileEntry (file : string).

Abbreviation FormData := (list (string * FormValue)).

(** Callbacks are the caller's code; the provider only invokes them.
    What an invocation does, return or throw, is the caller's: see
    [callback_onSuccess] and [callback_onMessage]. *)
Record Callback := mkCallback { callback_id : nat }.

(** The [setErrors] argument of [register] is the dispatcher of the
    caller's form-error state. *)
Inductive ErrorsDispatch := DispatchFormErrors.

Inductive ToastKind := ToastSuccess | ToastError | ToastInfo.

Inductive Provider := google | naver | kakao.

Definition provider_name (p : Provider) : string :=
  match p with
  | google => "google"
  | naver => "naver"
  | kakao => "kakao"
  end.

(** Everything the provider does that an observer can see, in order. *)
Inductive Event :=
| EvApiLogin (email password : string)
| EvApiForceLogin (email password : string)
| EvApiRegister (formData : FormData)
| EvApiLogout
| EvApiRegisterPushToken (fcmToken : string)
| EvGetFcmToken
| EvConfirm (text : string)
| EvToast (kind : ToastKind) (text : string)
| EvConsoleLog (text : string)
| EvConsoleError (text : string) (err : JsError)
| EvOnSuccess (cb : Callback)
| EvOnMessage (cb : Callback) (field text : string)
| EvNavigate (href : string).

Record World := mkWorld {
  stored_token : option string;   (* owned by tokenManager *)
  user : option User;             (* useState<User | null> *)
  formErrors : FormErrors;        (* the caller's error state *)
  trace : list Event;
}.

(** A settled promise. *)
Inductive Outcome (A : Type) :=
| Resolved (a : A)
| Rejected (e : JsError).
Arguments Resolved {A} a.
Arguments Rejected {A} e.

(** Modelled from the spec: the collaborators of [@/api/auth],
    [@/utils/firebase] and the browser, by their interfaces; [decodeToken]
    is the decoding [tokenManager.getUserInfo] applies to the stored
    credential.  Their answers may depend on everything that happened so
    far.  The last two fields are the caller's callbacks: invoking
    [onSuccess()] or [onMessage(field, message)] returns or throws. *)
Record Env := mkEnv {
  decodeToken : string -> option User;
  authAPI_login : World -> string -> string -> Outcome (option LoginData);
  authAPI_forceLogin : World -> string -> string -> Outcome (option LoginData);
  authAPI_register : World -> FormData -> Outcome (option RegisterData);
  authAPI_logout : World -> Outcome unit;
  authAPI_registerPushToken : World -> string -> Outcome unit;
  firebase_getFcmToken : World -> Outcome (option string);
  window_confirm : World -> string -> bool;
  callback_onSuccess : World -> Callback -> Outcome unit;
  callback_onMessage : World -> Callback -> string -> string -> Outcome unit;
}.

(** ** The monad of async functions *)

Definition Js (A : Type) : Type := World -> Outcome A * World.

#[global] Instance Js_ret : MRet Js := fun A a w => (Resolved a, w).

#[global] Instance Js_bind : MBind Js := fun A B f m w =>
  match m w with
  | (Resolved a, w') => f a w'
  | (Rejected e, w') => (Rejected e, w')
  end.

Definition throw {A} (e : JsError) : Js A := fun w => (Rejected e, w).

Definition try_catch {A} (body : Js A) (handler : JsError -> Js A) : Js A :=
  fun w =>
    match body w with
    | (Resolved a, w') => (Resolved a, w')
    | (Rejected e, w') => handler e w'
    end.

(** [try { body } catch (e) { handler } finally { cleanup }] for a cleanup
    block that has no [return]: the completion of the try/catch part is
    kept unless the cleanup itself throws. *)
Definition try_catch_finally {A} (body : Js A) (handler : JsError -> Js A)
    (cleanup : Js unit) : Js A :=
  fun w =>
    match try_catch body handler w with
    | (r, w') =>
        match cleanup w' with
        | (Resolved _, w'') => (r, w'')
        | (Rejected e, w'') => (Rejected e, w'')
        end
    end.

Definition emit (ev : Event) : Js unit :=
  fun w => (Resolved tt,
            mkWorld (stored_token w) (user w) (formErrors w) (trace w ++ [ev])).

(** [await] of a collaborator: the request is recorded, the answer is the
    collaborator's. *)
Definition await {A} (ev : Event) (answer : World -> Outcome A) : Js A :=
  fun w => match emit ev w with (_, w') => (answer w, w') end.

(** JavaScript truthiness of an optional string: [undefined] and the empty
    string are falsy. *)
Definition truthy (s : option string) : option string :=
  match s with
  | Some s' => if decide (s' = "") then None else Some s'
  | None => None
  end.

(** [s || d] on an optional string. *)
Definition or_else (s : option string) (d : string) : string :=
  default d (truthy s).

(** Optional chaining [x?.field] for a field that may itself be absent. *)
Definition chain {A B} (x : option A) (field : A -> option B) : option B :=
  match x with
  | Some a => field a
  | None => None
  end.

Notation "x ?. f" := (chain x f) (at level 40, left associativity).

(** [x.field] on a possibly undefined [x]. *)
Definition deref {A} (x : option A) : Js A :=
  match x with
  | Some a => mret a
  | None => throw TypeError
  end.

(** The events a call added to the trace. *)
Definition emitted (w w' : World) : list Event :=
  drop (length (trace w)) (trace w').

Definition is_error_toast (ev : Event) : bool :=
  match ev with EvToast ToastError _ => true | _ => false end.

Definition is_toast (ev : Event) : bool :=
  match ev with EvToast _ _ => true | _ => false end.

Definition is_forceLogin_request (ev : Event) : bool :=
  match ev with EvApiForceLogin _ _ => true | _ => false end.

Definition is_onMessage (ev : Event) : bool :=
  match ev with EvOnMessage _ _ _ => true | _ => false end.

Definition is_onSuccess (ev : Event) : bool :=
  match ev with EvOnSuccess _ => true | _ => false end.

(** The events of the secondary push-token step of a refresh. *)
Definition is_push_event (ev : Event) : bool :=
  match ev with
  | EvGetFcmToken | EvApiRegisterPushToken _
  | EvConsoleLog _ | EvConsoleError _ _ => true
  | _ => false
  end.

Definition count (p : Event -> bool) (l : list Event) : nat :=
  length (List.filter p l).

Definition add_events (w : World) (l : list Event) : World :=
  mkWorld (stored_token w) (user w) (formErrors w) (trace w ++ l).

(** ** Collaborator wrappers *)

Section Provider.

Context (env : Env).

(** Modelled from the spec: [tokenManager] of [@/utils/tokenManager], the
    token storage utility: [getToken() -> credential | absent],
    [setToken(credential)], [clearTokens()] and [getUserInfo()], which
    derives the identity from the stored credential without a network
    call. *)
Definition tokenManager_getToken : Js (option string) :=
  fun w => (Resolved (stored_token w), w).

Definition tokenManager_setToken (t : string) : Js unit :=
  fun w => (Resolved tt, mkWorld (Some t) (user w) (formErrors w) (trace w)).

Definition tokenManager_clearTokens : Js unit :=
  fun w => (Resolved tt, mkWorld None (user w) (formErrors w) (trace w)).

Definition tokenManager_getUserInfo : Js (option User) :=
  fun w => (Resolved (stored_token w ?. decodeToken env), w).

(** The React state setters. *)
Definition setUser (u : option User) : Js unit :=
  fun w => (Resolved tt, mkWorld (stored_token w) u (formErrors w) (trace w)).

Definition setErrors (d : ErrorsDispatch) (update : FormErrors -> FormErrors)
    : Js unit :=
  fun w => (Resolved tt,
            mkWorld (stored_token w) (user w) (update (formErrors w)) (trace w)).

Definition toast_success (text : string) : Js unit := emit (EvToast ToastSuccess text).
Definition toast_error (text : string) : Js unit := emit (EvToast ToastError text).
Definition toast_info (text : string) : Js unit := emit (EvToast ToastInfo text).
Definition console_log (text : string) : Js unit := emit (EvConsoleLog text).
Definition console_error (text : string) (e : JsError) : Js unit :=
  emit (EvConsoleError text e).

Definition confirm (text : string) : Js bool :=
  fun w => match emit (EvConfirm text) w with
           | (_, w') => (Resolved (window_confirm env w text), w')
           end.

(** [onSuccess?.()]: the invocation is recorded; the callback returns or
    throws. *)
Definition call_onSuccess (onSuccess : option Callback) : Js unit :=
  match onSuccess with
  | Some cb => await (EvOnSuccess cb) (fun w => callback_onSuccess env w cb)
  | None => mret tt
  end.

(** [onMessage(field, text)] *)
Definition call_onMessage (cb : Callback) (field text : string) : Js unit :=
  await (EvOnMessage cb field text)
        (fun w => callback_onMessage env w cb field text).

(** ** The provider *)

Definition updateUserFromToken : Js unit :=
  userInfo ← tokenManager_getUserInfo;
  setUser userInfo;;
  try_catch
    (fcmToken ← await EvGetFcmToken (firebase_getFcmToken env);
     match truthy fcmToken with
     | Some t =>
         await (EvApiRegisterPushToken t)
               (fun w => authAPI_registerPushToken env w t);;
         console_log "✅ FCM 토큰 등록 완료"
     | None => mret tt
     end)
    (fun err => console_error "❌ FCM 토큰 등록 실패:" err).

(** The [useEffect] that runs once on mount. *)
Definition onMount : Js unit :=
  t ← tokenManager_getToken;
  match truthy t with
  | Some _ => updateUserFromToken
  | None => mret tt
  end.

Definition forceLogin (email password : string) (onSuccess : option Callback)
    : Js bool :=
  try_catch
    (data ← await (EvApiForceLogin email password)
                  (fun w => authAPI_forceLogin env w email password);
     match data ?. (fun d => if loggedIn d then truthy (accessToken d) else None) with
     | Some token =>
         tokenManager_setToken token;;
         updateUserFromToken;;
         toast_success (or_else (data ?. message) "강제 로그인 성공!");;
         call_onSuccess onSuccess;;
         mret true
     | None =>
         toast_error (or_else (data ?. message) "강제 로그인 실패");;
         mret false
     end)
    (fun error =>
       let status := response error ?. status in
       let message := response error ?. err_data ?. err_message in
       (if decide (status = Some 401%Z)
        then toast_error (or_else message "이메일 또는 비밀번호 오류")
        else toast_error (or_else message "강제 로그인 중 오류 발생"));;
       mret false).

Definition login (email password : string) (onSuccess : option Callback)
    : Js bool :=
  try_catch
    (data ← await (EvApiLogin email password)
                  (fun w => authAPI_login env w email password);
     match data ?. (fun d => if loggedIn d then truthy (accessToken d) else None) with
     | Some token =>
         tokenManager_setToken token;;
         updateUserFromToken;;
         d ← deref data;
         toast_success (or_else (message d) "로그인 성공!");;
         call_onSuccess onSuccess;;
         mret true
     | None =>
         d ← deref data;
         toast_error (or_else (message d) "로그인에 실패했습니다.");;
         mret false
     end)
    (fun error =>
       let status := response error ?. status in
       let msg := response error ?. err_data ?. err_message in
       if decide (status = Some 409%Z) then
         confirmed ← confirm (or_else msg "다른 브라우저에서 로그인됨. 강제 로그인하시겠습니까?");
         if (confirmed : bool) then forceLogin email password onSuccess
         else mret false
       else
         toast_error (or_else msg "로그인 중 오류 발생");;
         mret false).

(** [{ ...prev, ...errors }]: the keys of [errors] win. *)
Definition spread (prev errors : FormErrors) : FormErrors := errors ∪ prev.

(** [new FormData()] filled as [register] does. *)
Definition build_formData (form : RegisterRequest) : FormData :=
  let userPayload :=
    [("email", form_email form);
     ("password", form_password form);
     ("nickname", form_nickname form)] in
  [("user", JsonBlob userPayload "application/json")]
  ++ match form_profileImage form with
     | Some image => [("profileImage", FileEntry image)]
     | None => []
     end.

Definition register (form : RegisterRequest) (onMessage : option Callback)
    (setErrors' : option ErrorsDispatch) : Js bool :=
  try_catch
    (let formData := build_formData form in
     data ← await (EvApiRegister formData)
                  (fun w => authAPI_register env w formData);
     if match data with Some d => success d | None => false end then
       d ← deref data;
       match truthy (reg_accessToken d) with
       | Some token =>
           tokenManager_setToken token;;
           updateUserFromToken
       | None => mret tt
       end;;
       toast_success (or_else (reg_message d) "회원가입 성공!");;
       mret true
     else
       d ← deref data;
       match reg_errors d, setErrors' with
       | Some errors, Some dispatch =>
           setErrors dispatch (fun prev => spread prev errors)
       | _, _ => mret tt
       end;;
       match reg_errors d, truthy (reg_message d), onMessage with
       | None, Some text, Some cb => call_onMessage cb "nicknameError" text
       | _, _, _ => mret tt
       end;;
       toast_error (or_else (reg_message d) "회원가입 실패");;
       mret false)
    (fun error =>
       let responseData := response error ?. err_data in
       match responseData ?. err_errors, setErrors' with
       | Some errors, Some dispatch =>
           setErrors dispatch (fun prev => spread prev errors)
       | _, _ => mret tt
       end;;
       match responseData ?. err_errors, truthy (responseData ?. err_message),
             onMessage with
       | None, Some text, Some cb => call_onMessage cb "nicknameError" text
       | _, _, _ => mret tt
       end;;
       toast_error (or_else (responseData ?. err_message) "회원가입 중 오류 발생");;
       mret false).

Definition logout : Js unit :=
  try_catch_finally
    (await EvApiLogout (authAPI_logout env))
    (fun error => console_error "Logout error:" error)
    (tokenManager_clearTokens;;
     setUser None;;
     toast_info "로그아웃 되었습니다.").

Definition loginWithSocialMedia (provider : Provider) : Js unit :=
  emit (EvNavigate (String.append "/oauth2/authorization/" (provider_name provider))).

End Provider.

(** ** Vocabulary of the statements *)

(** The world right after a refresh has published the decoded identity,
    before the push-token step. *)
Definition published (env : Env) (w : World) : World :=
  mkWorld (stored_token w) (stored_token w ?. decodeToken env)
          (formErrors w) (trace w).

(** The secondary step of a refresh fails with [e] after the events [pre]:
    either the push-token provider fails, or it yields a token and the
    backend refuses to register it. *)
Inductive PushFailure (env : Env) (w : World) : JsError -> list Event -> Prop :=
| provider_fails e :
    firebase_getFcmToken env w = Rejected e ->
    PushFailure env w e [EvGetFcmToken]
| registration_fails fcmToken t e :
    firebase_getFcmToken env w = Resolved fcmToken ->
    truthy fcmToken = Some t ->
    authAPI_registerPushToken env (add_events w [EvGetFcmToken]) t = Rejected e ->
    PushFailure env w e [EvGetFcmToken; EvApiRegisterPushToken t].

(** The world once [tokenManager.setToken(token)] has run. *)
Definition credential_stored (token : string) (w : World) : World :=
  mkWorld (Some token) (user w) (formErrors w) (trace w).

(** What a successful sign-in does after the refresh: the success
    notification, then the optional callback. *)
Definition success_events (text : string) (onSuccess : option Callback)
    : list Event :=
  EvToast ToastSuccess text
  :: match onSuccess with
     | Some cb => [EvOnSuccess cb]
     | None => []
     end.

(** The ways a [register] call fails, each with the [errors] and [message]
    of the payload it reads and the fallback text of its notification: a
    response that does not report success, a rejected request (the payload
    is [error.response.data]), and a response without a body. *)
Inductive RegisterFailure (env : Env) (w : World) (formData : FormData)
    : option FormErrors -> option string -> string -> Prop :=
| declared_failure d :
    authAPI_register env w formData = Resolved (Some d) ->
    success d = false ->
    RegisterFailure env w formData (reg_errors d) (reg_message d) "회원가입 실패"
| transport_failure e :
    authAPI_register env w formData = Rejected e ->
    RegisterFailure env w formData
      (response e ?. err_data ?. err_errors)
      (response e ?. err_data ?. err_message)
      "회원가입 중 오류 발생"
| empty_response :
    authAPI_register env w formData = Resolved None ->
    RegisterFailure env w formData None None "회원가입 중 오류 발생".

(** The error routing of [register] in the words of the specification: if
    field-level errors are present, merge them into the caller's
    error-state mapping; else if a message is present, route it to the
    caller's message callback tagged as a nickname-field error; always
    show an error notification. *)
Definition spec_failure_routing (errors : option FormErrors)
    (message : option string) (fallback : string) (onMessage : Callback)
    (w : World) : World :=
  let routed :=
    match errors with
    | Some errs =>
        mkWorld (stored_token w) (user w) (spread (formErrors w) errs) (trace w)
    | None =>
        match truthy message with
        | Some text => add_events w [EvOnMessage onMessage "nicknameError" text]
        | None => w
        end
    end in
  add_events routed [EvToast ToastError (or_else message fallback)].

(** More kinds of events. *)
Definition is_confirm (ev : Event) : bool :=
  match ev with EvConfirm _ => true | _ => false end.

Definition is_login_request (ev : Event) : bool :=
  match ev with EvApiLogin _ _ => true | _ => false end.

Definition is_register_request (ev : Event) : bool :=
  match ev with EvApiRegister _ => true | _ => false end.

Definition is_push_registration (ev : Event) : bool :=
  match ev with EvApiRegisterPushToken _ => true | _ => false end.

Definition is_fcm_request (ev : Event) : bool :=
  match ev with EvGetFcmToken => true | _ => false end.

(** The session shows exactly what the stored credential decodes to. *)
Definition in_sync (env : Env) (w : World) : Prop :=
  user w = stored_token w ?. decodeToken env.

(** A page reload: the stored credential survives, the React state starts
    again from [useState(null)] and the form is empty. *)
Definition reload (w : World) : World :=
  mkWorld (stored_token w) None ∅ (trace w).

(** The caller's success callback, if there is one, returns normally
    whenever it is invoked. *)
Definition onSuccess_returns (env : Env) (onSuccess : option Callback)
    : Prop :=
  forall w cb, onSuccess = Some cb -> callback_onSuccess env w cb = Resolved tt.

(** The same for the message callback. *)
Definition onMessage_returns (env : Env) (onMessage : option Callback)
    : Prop :=
  forall w cb field text,
    onMessage = Some cb ->
    callback_onMessage env w cb field text = Resolved tt.

(** What the message callback throws, if it throws, is not an HTTP error:
    it carries no response. *)
Definition onMessage_throws_plain (env : Env) (onMessage : option Callback)
    : Prop :=
  forall w cb field text e,
    onMessage = Some cb ->
    callback_onMessage env w cb field text = Rejected e ->
    response e = None.

(** A non-empty credential is stored and the session is the user it
    decodes to. *)
Definition signed_in (env : Env) (w : World) : Prop :=
  exists token,
    token <> "" /\ stored_token w = Some token
    /\ user w = decodeToken env token.

(** ** Sample collaborators *)

Module Scenario.

Definition alice : User := mkUser "42" "alice".

Definition decode (t : string) : option User :=
  if decide (t = "T") then Some alice else None.

Definition fresh : World := mkWorld None None ∅ [].

Definition signed_in : World := mkWorld (Some "T") (Some alice) ∅ [].

Definition granted : LoginData := mkLoginData true (Some "T") None.

Definition refused : LoginData := mkLoginData false None (Some "bad password").

Definition http_error (code : Z) (payload : option ErrorData) : JsError :=
  mkJsError (Some (mkErrorResponse (Some code) payload)).

Definition network_error : JsError := mkJsError None.

(** Collaborators that give the same answers whatever happened before. *)
Definition constant (login_answer force_answer : Outcome (option LoginData))
    (register_answer : Outcome (option RegisterData))
    (logout_answer : Outcome unit) (fcm_answer : Outcome (option string))
    (confirm_answer : bool) : Env :=
  mkEnv decode
        (fun _ _ _ => login_answer)
        (fun _ _ _ => force_answer)
        (fun _ _ => register_answer)
        (fun _ => logout_answer)
        (fun _ _ => Resolved tt)
        (fun _ => fcm_answer)
        (fun _ _ => confirm_answer)
        (fun _ _ => Resolved tt)
        (fun _ _ _ _ => Resolved tt).

(** A healthy backend; the browser grants no push token. *)
Definition healthy : Env :=
  constant (Resolved (Some granted)) (Resolved (Some granted))
           (Resolved (Some (mkRegisterData true None None None)))
           (Resolved tt) (Resolved None) true.

(** The backend is unreachable and the push-token provider fails. *)
Definition offline : Env :=
  constant (Rejected network_error) (Rejected network_error)
           (Rejected network_error) (Rejected network_error)
           (Rejected network_error) false.

(** Another browser holds the session; the user answers the prompt with
    [accept]. *)
Definition conflict (accept : bool) : Env :=
  constant (Rejected (http_error 409 None)) (Resolved (Some granted))
           (Rejected network_error) (Resolved tt) (Resolved None) accept.

(** The backend answers the sign-in with [loggedIn: false]. *)
Definition refusing : Env :=
  constant (Resolved (Some refused)) (Resolved (Some refused))
           (Rejected network_error) (Resolved tt) (Resolved None) false.

(** The forced sign-in is answered with status 401 and no payload. *)
Definition unauthorized : Env :=
  constant (Rejected (http_error 409 None)) (Rejected (http_error 401 None))
           (Rejected network_error) (Resolved tt) (Resolved None) true.

Definition carol : RegisterRequest :=
  mkRegisterRequest "c@d.com" "pw" "carol" None.

Definition on_message : Callback := mkCallback 7.

(** The backend declares the registration failed, with a message only. *)
Definition nickname_taken : RegisterData :=
  mkRegisterData false None (Some "nickname taken") None.

Definition declining : Env :=
  constant (Rejected network_error) (Rejected network_error)
           (Resolved (Some nickname_taken))
           (Resolved tt) (Resolved None) false.

(** The request is rejected with field-level errors in its payload. *)
Definition email_errors : FormErrors := {[ "emailError" := "email taken" ]}.

Definition invalid : Env :=
  constant (Rejected network_error) (Rejected network_error)
           (Rejected (http_error 400
              (Some (mkErrorData (Some "invalid form") (Some email_errors)))))
           (Resolved tt) (Resolved None) false.

(** A form that already shows a password error. *)
Definition with_password_error : World :=
  mkWorld None None {[ "passwordError" := "too short" ]} [].

(** The backend grants the sign-in but sends an empty credential. *)
Definition empty_token : Env :=
  constant (Resolved (Some (mkLoginData true (Some "") None)))
           (Resolved (Some (mkLoginData true (Some "") None)))
           (Rejected network_error) (Resolved tt) (Resolved None) false.

(** Every response comes without a body. *)
Definition bodiless : Env :=
  constant (Resolved None) (Resolved None) (Resolved None)
           (Resolved tt) (Resolved None) false.

(** The registration succeeds and signs the new user in. *)
Definition welcoming : Env :=
  constant (Rejected network_error) (Rejected network_error)
           (Resolved (Some (mkRegisterData true (Some "T") None None)))
           (Resolved tt) (Resolved None) false.

(** The registration fails with a message and an empty [errors] object. *)
Definition vague : Env :=
  constant (Rejected network_error) (Rejected network_error)
           (Resolved (Some (mkRegisterData false None (Some "failed") (Some ∅))))
           (Resolved tt) (Resolved None) false.

Definition on_success : Callback := mkCallback 3.

(** The collaborators of [base], with callbacks that throw [e] whenever
    they are invoked. *)
Definition with_throwing_callbacks (base : Env) (e : JsError) : Env :=
  mkEnv (decodeToken base) (authAPI_login base) (authAPI_forceLogin base)
        (authAPI_register base) (authAPI_logout base)
        (authAPI_registerPushToken base) (firebase_getFcmToken base)
        (window_confirm base)
        (fun _ _ => Rejected e)
        (fun _ _ _ _ => Rejected e).

(** The forced sign-in is refused with status [code] and the message
    "account locked". *)
Definition locked (code : Z) : Env :=
  constant (Rejected (http_error 409 None))
           (Rejected (http_error code
              (Some (mkErrorData (Some "account locked") None))))
           (Rejected network_error) (Resolved tt) (Resolved None) true.

(** An error object that carries a response with a message. *)
Definition echo_error : JsError :=
  http_error 400 (Some (mkErrorData (Some "again") None)).

End Scenario.

(** * Properties *)

(** ** Traces *)

Lemma emitted_app (w w' : World) (l : list Event) :
  trace w' = trace w ++ l -> emitted w w' = l.
Proof. intros H. unfold emitted. rewrite H. apply drop_app_length. Qed.

Create HintDb js discriminated.

#[global] Hint Unfold mbind mret Js_bind Js_ret throw try_catch
  try_catch_finally await emit deref
  tokenManager_getToken tokenManager_setToken tokenManager_clearTokens
  tokenManager_getUserInfo setUser setErrors
  toast_success toast_error toast_info console_log console_error confirm
  call_onSuccess call_onMessage : js.

(** Run the straight-line part of a computation. *)
Ltac js_run := autounfold with js; cbn.

Lemma emitted_add (w : World) st u fe (l : list Event) :
  emitted w (mkWorld st u fe (trace w ++ l)) = l.
Proof. by apply emitted_app. Qed.

(** Bring a trace to the shape [trace w ++ l] and read off [l]. *)
Ltac trace_norm :=
  cbn; rewrite <- ?app_assoc; cbn; rewrite ?emitted_add; cbn.

Lemma truthy_nonempty (s : string) : s <> "" -> truthy (Some s) = Some s.
Proof. intros Hs. unfold truthy. by rewrite decide_False. Qed.

Lemma count_app (p : Event -> bool) (l k : list Event) :
  count p (l ++ k) = count p l + count p k.
Proof. unfold count. by rewrite List.filter_app, length_app. Qed.

Lemma count_cons (p : Event -> bool) (ev : Event) (l : list Event) :
  count p (ev :: l) = (if p ev then 1 else 0) + count p l.
Proof. unfold count. cbn. by destruct (p ev). Qed.

Lemma count_push_events (p : Event -> bool) (l : list Event) :
  (forall ev, is_push_event ev = true -> p ev = false) ->
  Forall (fun ev => is_push_event ev = true) l ->
  count p l = 0.
Proof.
  intros Hp Hl. induction Hl as [|ev l Hev _ IH]; [done|].
  rewrite count_cons, IH, (Hp ev Hev). done.
Qed.

Lemma count_nil (p : Event -> bool) : count p [] = 0.
Proof. done. Qed.

(** Count the events of one kind in a trace made of known events and of
    the events of refreshes. *)
Ltac count_norm :=
  repeat first
    [ rewrite count_app
    | rewrite count_cons
    | rewrite count_nil
    | match goal with
      | H : Forall (fun ev => is_push_event ev = true) ?l
        |- context [count ?p ?l] =>
          rewrite (count_push_events p l ltac:(by intros []) H)
      end ];
  cbn.

Section ProviderFacts.

Context (env : Env).

(** The refresh always completes: it publishes the decoded identity and
    adds only events of the push-token step. *)
Lemma updateUserFromToken_run (w : World) :
  exists l,
    updateUserFromToken env w =
      (Resolved tt,
       mkWorld (stored_token w) (stored_token w ?. decodeToken env)
               (formErrors w) (trace w ++ l))
    /\ Forall (fun ev => is_push_event ev = true) l.
Proof.
  unfold updateUserFromToken. js_run.
  destruct (firebase_getFcmToken env _) as [fcmToken|e]; cbn.
  - destruct (truthy fcmToken) as [t|]; cbn.
    + destruct (authAPI_registerPushToken env _ t) as [[]|e]; cbn.
      * eexists. rewrite <- !app_assoc. split; [reflexivity|].
        repeat constructor.
      * eexists. rewrite <- !app_assoc. split; [reflexivity|].
        repeat constructor.
    + eexists. split; [reflexivity|]. repeat constructor.
  - eexists. rewrite <- !app_assoc. split; [reflexivity|]. repeat constructor.
Qed.

(** Split on whatever the computation inspects next; a refresh is replaced
    by its known result. *)
Ltac js_cases :=
  repeat first
    [ match goal with
      | |- context [updateUserFromToken env ?w] =>
          let l := fresh "refresh" in
          let Hl := fresh "Hrefresh" in
          destruct (updateUserFromToken_run w) as (l & -> & Hl); cbn in *
      end
    | match goal with
      | |- context [chain ?x _] =>
          first [ is_var x
                | lazymatch x with
                  | response _ => idtac
                  | err_data _ => idtac
                  end ];
          destruct x eqn:?; cbn in *
      end
    | match goal with
      | |- context [match ?x with _ => _ end] =>
          first [ is_var x
                | lazymatch x with
                  | authAPI_login _ _ _ _ => idtac
                  | authAPI_forceLogin _ _ _ _ => idtac
                  | authAPI_register _ _ _ => idtac
                  | callback_onSuccess _ _ _ => idtac
                  | callback_onMessage _ _ _ _ _ => idtac
                  | window_confirm _ _ _ => idtac
                  | truthy _ => idtac
                  | decide _ => idtac
                  | loggedIn _ => idtac
                  | success _ => idtac
                  | reg_errors _ => idtac
                  | response _ => idtac
                  | status _ => idtac
                  | err_data _ => idtac
                  | err_errors _ => idtac
                  end ];
          destruct x eqn:?; cbn in *
      end ].

(** A callback that returns normally did not throw. *)
Ltac callback_contra :=
  match goal with
  | Hret : onSuccess_returns _ _,
    H : callback_onSuccess _ _ _ = Rejected _ |- _ =>
      by rewrite (Hret _ _ eq_refl) in H
  | Hret : onMessage_returns _ _,
    H : callback_onMessage _ _ _ _ _ = Rejected _ |- _ =>
      by rewrite (Hret _ _ _ _ eq_refl) in H
  end.

Lemma forceLogin_total email password onSuccess (w : World) :
  exists b w' l,
    forceLogin env email password onSuccess w = (Resolved b, w')
    /\ trace w' = trace w ++ EvApiForceLogin email password :: l
    /\ count is_forceLogin_request l = 0
    /\ formErrors w' = formErrors w
    /\ (onSuccess_returns env onSuccess ->
        b = false -> stored_token w' = stored_token w /\ user w' = user w).
Proof.
  unfold forceLogin. js_run. js_cases;
    (eexists _, _, _; split; [reflexivity|]; trace_norm;
     split; [reflexivity|]; count_norm; repeat split; try done;
     callback_contra).
Qed.



(** A sign-in that the backend grants: the credential is stored, the
    refresh runs on it, then the notification and the callback. *)
Lemma login_granted email password onSuccess (w : World) d token :
  authAPI_login env w email password = Resolved (Some d) ->
  loggedIn d = true ->
  truthy (accessToken d) = Some token ->
  onSuccess_returns env onSuccess ->
  exists refresh,
    updateUserFromToken env
      (credential_stored token (add_events w [EvApiLogin email password]))
    = (Resolved tt,
       mkWorld (Some token) (decodeToken env token) (formErrors w)
               (trace w ++ EvApiLogin email password :: refresh))
    /\ login env email password onSuccess w
       = (Resolved true,
          mkWorld (Some token) (decodeToken env token) (formErrors w)
            (trace w ++ EvApiLogin email password :: refresh
             ++ success_events (or_else (message d) "로그인 성공!") onSuccess))
    /\ Forall (fun ev => is_push_event ev = true) refresh.
Proof.
  intros Hdata Hin Htoken Hret.
  unfold login, credential_stored, add_events, success_events. js_run.
  rewrite Hdata; cbn. rewrite Hin, Htoken; cbn. js_cases;
    try callback_contra;
    match goal with
    | Hl : Forall _ ?l |- _ => exists l; trace_norm; done
    end.
Qed.

Lemma forceLogin_granted email password onSuccess (w : World) d token :
  authAPI_forceLogin env w email password = Resolved (Some d) ->
  loggedIn d = true ->
  truthy (accessToken d) = Some token ->
  onSuccess_returns env onSuccess ->
  exists refresh,
    updateUserFromToken env
      (credential_stored token (add_events w [EvApiForceLogin email password]))
    = (Resolved tt,
       mkWorld (Some token) (decodeToken env token) (formErrors w)
               (trace w ++ EvApiForceLogin email password :: refresh))
    /\ forceLogin env email password onSuccess w
       = (Resolved true,
          mkWorld (Some token) (decodeToken env token) (formErrors w)
            (trace w ++ EvApiForceLogin email password :: refresh
             ++ success_events (or_else (message d) "강제 로그인 성공!") onSuccess))
    /\ Forall (fun ev => is_push_event ev = true) refresh.
Proof.
  intros Hdata Hin Htoken Hret.
  unfold forceLogin, credential_stored, add_events, success_events. js_run.
  rewrite Hdata; cbn. rewrite Hin, Htoken; cbn. js_cases;
    try callback_contra;
    match goal with
    | Hl : Forall _ ?l |- _ => exists l; trace_norm; done
    end.
Qed.

(** C1 (as the code behaves): a [login] whose response carries
    [loggedIn: true] and a credential (a non-empty [accessToken], as the
    code tests it), and whose success callback, when there is one, returns
    normally, stores that credential, runs the refresh on the stored
    credential so that the session is the user decoded from it, shows one
    success notification, invokes the callback when there is one, and
    returns [true]. *)
Theorem login_success email password onSuccess (w : World) d token :
  authAPI_login env w email password = Resolved (Some d) ->
  loggedIn d = true ->
  accessToken d = Some token ->
  token <> "" ->
  onSuccess_returns env onSuccess ->
  exists w2 w',
    updateUserFromToken env
      (credential_stored token (add_events w [EvApiLogin email password]))
    = (Resolved tt, w2)
    /\ login env email password onSuccess w = (Resolved true, w')
    /\ w' = add_events w2
              (success_events (or_else (message d) "로그인 성공!") onSuccess)
    /\ stored_token w' = Some token
    /\ user w' = decodeToken env token
    /\ count is_toast (emitted w w') = 1
    /\ count is_error_toast (emitted w w') = 0
    /\ count is_onSuccess (emitted w w')
       = match onSuccess with Some _ => 1 | None => 0 end.
Proof.
  intros Hdata Hin Htoken Hnonempty Hret.
  assert (truthy (accessToken d) = Some token) as Htruthy
    by (rewrite Htoken; by apply truthy_nonempty).
  destruct (login_granted email password onSuccess w d token
              Hdata Hin Htruthy Hret)
    as (refresh & Hrefresh & Hlogin & Hpush).
  eexists _, _. split; [exact Hrefresh|]. split; [exact Hlogin|].
  unfold add_events, success_events; cbn. rewrite <- app_assoc; cbn.
  repeat split; rewrite emitted_add; destruct onSuccess; count_norm; done.
Qed.

(** C2 (as the code behaves): a [login] rejected with status 409 whose
    confirmation prompt is declined leaves the stored credential and the
    session unchanged, makes no [forceLogin] request, returns [false], and
    shows no notification at all: the only interaction after the request
    is the prompt itself. *)
Theorem login_conflict_declined email password onSuccess (w : World) e r :
  authAPI_login env w email password = Rejected e ->
  response e = Some r ->
  status r = Some 409%Z ->
  window_confirm env (add_events w [EvApiLogin email password])
    (or_else (err_data r ?. err_message)
             "다른 브라우저에서 로그인됨. 강제 로그인하시겠습니까?") = false ->
  exists w',
    login env email password onSuccess w = (Resolved false, w')
    /\ stored_token w' = stored_token w
    /\ user w' = user w
    /\ emitted w w' =
         [EvApiLogin email password;
          EvConfirm (or_else (err_data r ?. err_message)
                       "다른 브라우저에서 로그인됨. 강제 로그인하시겠습니까?")]
    /\ count is_toast (emitted w w') = 0
    /\ count is_forceLogin_request (emitted w w') = 0.
Proof.
  intros Hrej Hresp Hstatus Hdeclined.
  unfold login, add_events in *. js_run.
  rewrite Hrej; cbn. rewrite Hresp; cbn. rewrite Hstatus; cbn.
    rewrite decide_True by done; cbn.
  rewrite Hdeclined; cbn.
  eexists. split; [reflexivity|]. trace_norm. done.
Qed.

(** C3: a [login] rejected with status 409 whose confirmation prompt is
    accepted is exactly one [forceLogin] call with the same email, password
    and callback, run after the request and the prompt; [login] returns
    what that call returns, and exactly one [forceLogin] request reaches
    the backend, carrying the same email and password. *)
Theorem login_conflict_confirmed email password onSuccess (w : World) e r :
  authAPI_login env w email password = Rejected e ->
  response e = Some r ->
  status r = Some 409%Z ->
  window_confirm env (add_events w [EvApiLogin email password])
    (or_else (err_data r ?. err_message)
             "다른 브라우저에서 로그인됨. 강제 로그인하시겠습니까?") = true ->
  login env email password onSuccess w
  = forceLogin env email password onSuccess
      (add_events w
         [EvApiLogin email password;
          EvConfirm (or_else (err_data r ?. err_message)
                       "다른 브라우저에서 로그인됨. 강제 로그인하시겠습니까?")])
  /\ exists b w' l,
       login env email password onSuccess w = (Resolved b, w')
       /\ emitted w w' =
            [EvApiLogin email password;
             EvConfirm (or_else (err_data r ?. err_message)
                          "다른 브라우저에서 로그인됨. 강제 로그인하시겠습니까?");
             EvApiForceLogin email password] ++ l
       /\ count is_forceLogin_request l = 0
       /\ count is_forceLogin_request (emitted w w') = 1.
Proof.
  intros Hrej Hresp Hstatus Haccepted.
  assert (login env email password onSuccess w
          = forceLogin env email password onSuccess
              (add_events w
                 [EvApiLogin email password;
                  EvConfirm (or_else (err_data r ?. err_message)
                    "다른 브라우저에서 로그인됨. 강제 로그인하시겠습니까?")]))
    as Hlogin.
  { unfold login at 1. unfold add_events in *. js_run.
    rewrite Hrej; cbn. rewrite Hresp; cbn. rewrite Hstatus; cbn.
    rewrite decide_True by done; cbn.
    rewrite Haccepted; cbn. by rewrite <- app_assoc. }
  split; [exact Hlogin|]. rewrite Hlogin.
  destruct (forceLogin_total email password onSuccess
              (add_events w
                 [EvApiLogin email password;
                  EvConfirm (or_else (err_data r ?. err_message)
                    "다른 브라우저에서 로그인됨. 강제 로그인하시겠습니까?")]))
    as (b & w' & l & Hrun & Htrace & Hcount & _).
  exists b, w', l. split; [exact Hrun|].
  cbn in Htrace. rewrite <- app_assoc in Htrace; cbn in Htrace.
  rewrite (emitted_app _ _ _ Htrace).
  repeat split; [done|]. count_norm. by rewrite Hcount.
Qed.

(** C8 (as the code behaves): a [forceLogin] rejected with an HTTP error
    returns [false] after one error notification: the backend's message
    when it sent one, whatever the status; without a message, the
    credential-mismatch text for status 401 and the generic forced-login
    text for any other status.  Its success path is that of [login]: store
    the credential, refresh, success notification, callback, and [true]
    when the callback returns normally. *)
Theorem forceLogin_outcomes email password onSuccess (w : World) :
  (forall e r,
     authAPI_forceLogin env w email password = Rejected e ->
     response e = Some r ->
     status r = Some 401%Z ->
     forceLogin env email password onSuccess w
     = (Resolved false,
        add_events w
          [EvApiForceLogin email password;
           EvToast ToastError
             (or_else (err_data r ?. err_message) "이메일 또는 비밀번호 오류")]))
  /\ (forall e r,
        authAPI_forceLogin env w email password = Rejected e ->
        response e = Some r ->
        status r <> Some 401%Z ->
        forceLogin env email password onSuccess w
        = (Resolved false,
           add_events w
             [EvApiForceLogin email password;
              EvToast ToastError
                (or_else (err_data r ?. err_message) "강제 로그인 중 오류 발생")]))
  /\ (forall d token,
        authAPI_forceLogin env w email password = Resolved (Some d) ->
        loggedIn d = true ->
        accessToken d = Some token ->
        token <> "" ->
        onSuccess_returns env onSuccess ->
        exists w2 w',
          updateUserFromToken env
            (credential_stored token
               (add_events w [EvApiForceLogin email password]))
          = (Resolved tt, w2)
          /\ forceLogin env email password onSuccess w = (Resolved true, w')
          /\ w' = add_events w2
                    (success_events (or_else (message d) "강제 로그인 성공!")
                                    onSuccess)
          /\ stored_token w' = Some token
          /\ user w' = decodeToken env token
          /\ count is_toast (emitted w w') = 1
          /\ count is_error_toast (emitted w w') = 0
          /\ count is_onSuccess (emitted w w')
             = match onSuccess with Some _ => 1 | None => 0 end).
Proof.
  split; [|split].
  - intros e r Hrej Hresp Hstatus. unfold forceLogin, add_events. js_run.
    rewrite Hrej; cbn. rewrite Hresp; cbn. rewrite Hstatus; cbn.
    rewrite decide_True by done; cbn.
    by rewrite <- app_assoc.
  - intros e r Hrej Hresp Hstatus. unfold forceLogin, add_events. js_run.
    rewrite Hrej; cbn. rewrite Hresp; cbn.
    destruct (decide (status r = Some 401%Z)) as [|_]; [done|]; cbn.
    by rewrite <- app_assoc.
  - intros d token Hdata Hin Htoken Hnonempty Hret.
    assert (truthy (accessToken d) = Some token) as Htruthy
      by (rewrite Htoken; by apply truthy_nonempty).
    destruct (forceLogin_granted email password onSuccess w d token
                Hdata Hin Htruthy Hret)
      as (refresh & Hrefresh & Hforce & Hpush).
    eexists _, _. split; [exact Hrefresh|]. split; [exact Hforce|].
    unfold add_events, success_events; cbn. rewrite <- app_assoc; cbn.
    repeat split; rewrite emitted_add; destruct onSuccess; count_norm; done.
Qed.

(** Every failure of [register], with both callbacks supplied, ends as
    the specification words it, provided the message callback returns
    normally when the routing reaches it. *)
Lemma register_failed form onMessage dispatch (w : World)
    errors message fallback :
  RegisterFailure env w (build_formData form) errors message fallback ->
  (errors = None -> onMessage_returns env (Some onMessage)) ->
  register env form (Some onMessage) (Some dispatch) w
  = (Resolved false,
     spec_failure_routing errors message fallback onMessage
       (add_events w [EvApiRegister (build_formData form)])).
Proof.
  intros Hfail Hret. unfold register, spec_failure_routing, add_events.
  set (formData := build_formData form) in *. clearbody formData.
  js_run.
  destruct Hfail as [d Hdata Hfailed|e Hrej|Hdata].
  - rewrite Hdata; cbn. rewrite Hfailed; cbn.
    destruct (reg_errors d) as [errs|]; cbn;
      [|specialize (Hret eq_refl); destruct (truthy (reg_message d)); cbn;
        rewrite ?(Hret _ _ _ _ eq_refl); cbn];
      by rewrite <- ?app_assoc.
  - rewrite Hrej; cbn.
    destruct (response e ?. err_data ?. err_errors) as [errs|]; cbn;
      [|specialize (Hret eq_refl);
        destruct (truthy (response e ?. err_data ?. err_message)); cbn;
        rewrite ?(Hret _ _ _ _ eq_refl); cbn];
      by rewrite <- ?app_assoc.
  - rewrite Hdata; cbn. by rewrite <- ?app_assoc.
Qed.

(** What a [register] that fails with field errors leaves in the caller's
    error state. *)
Lemma register_failed_errors form onMessage setErrors' (w : World)
    errs message fallback :
  RegisterFailure env w (build_formData form) (Some errs) message fallback ->
  exists w',
    register env form onMessage setErrors' w = (Resolved false, w')
    /\ formErrors w'
       = match setErrors' with
         | Some _ => spread (formErrors w) errs
         | None => formErrors w
         end.
Proof.
  intros Hfail. remember (Some errs) as errors eqn:Herrors.
  unfold register.
  set (formData := build_formData form) in *. clearbody formData.
  js_run.
  destruct Hfail as [d Hdata Hfailed|e Hrej|Hdata]; [| |done].
  - rewrite Hdata; cbn. rewrite Hfailed; cbn. rewrite Herrors; cbn.
    destruct setErrors'; cbn; eexists; split; reflexivity.
  - rewrite Hrej; cbn. rewrite Herrors; cbn.
    destruct setErrors'; cbn; eexists; split; reflexivity.
Qed.

(** A failure whose payload holds a message and no field errors: the
    message callback is invoked right after the request, and when what it
    throws carries no response it is not invoked again. *)
Lemma register_message_routed form onMessage dispatch (w : World)
    message fallback text :
  RegisterFailure env w (build_formData form) None message fallback ->
  truthy message = Some text ->
  exists r w' l,
    register env form (Some onMessage) (Some dispatch) w = (r, w')
    /\ trace w'
       = trace w
         ++ [EvApiRegister (build_formData form);
             EvOnMessage onMessage "nicknameError" text] ++ l
    /\ (onMessage_throws_plain env (Some onMessage) ->
        count is_onMessage l = 0 /\ formErrors w' = formErrors w).
Proof.
  intros Hfail Htext. remember None as errors eqn:Herrors.
  unfold register.
  set (formData := build_formData form) in *. clearbody formData.
  js_run.
  destruct Hfail as [d Hdata Hfailed|e Hrej|Hdata].
  - rewrite Hdata; cbn. rewrite Hfailed; cbn. rewrite Herrors, Htext; cbn.
    js_cases;
      (eexists _, _, _; split; [reflexivity|]; trace_norm;
       split; [reflexivity|]; intros Hplain; count_norm; try done;
       match goal with
       | H : callback_onMessage _ _ _ _ _ = Rejected ?e',
         H' : response ?e' = Some _ |- _ =>
           by rewrite (Hplain _ _ _ _ _ eq_refl H) in H'
       end).
  - rewrite Hrej; cbn. rewrite Herrors, Htext; cbn.
    js_cases;
      (eexists _, _, _; split; [reflexivity|]; trace_norm;
       split; [reflexivity|]; intros Hplain; by count_norm).
  - done.
Qed.

(** C6 (as the code behaves): when [register] fails, by a response that
    reports no success or by a rejected request, and both the message
    callback and the error setter are supplied, the failure payload is
    routed the same way in both cases.  Field errors are merged into the
    caller's error state, the message callback is not invoked, an error
    notification follows and the result is [false].  A (non-empty) message
    without field errors is passed to the message callback, tagged
    [nicknameError], right after the request; it is passed exactly once
    unless the callback throws an error that itself carries a response;
    when the callback returns normally the error notification follows and
    the result is [false]. *)
Theorem register_failure_routing form onMessage dispatch (w : World)
    errors message fallback :
  RegisterFailure env w (build_formData form) errors message fallback ->
  exists r w',
    register env form (Some onMessage) (Some dispatch) w = (r, w')
    /\ (forall errs,
          errors = Some errs ->
          r = Resolved false
          /\ w' = spec_failure_routing errors message fallback onMessage
                    (add_events w [EvApiRegister (build_formData form)])
          /\ formErrors w' = spread (formErrors w) errs
          /\ count is_onMessage (emitted w w') = 0)
    /\ (forall text,
          errors = None ->
          message = Some text ->
          text <> "" ->
          (exists l,
             emitted w w' =
               [EvApiRegister (build_formData form);
                EvOnMessage onMessage "nicknameError" text] ++ l)
          /\ (onMessage_throws_plain env (Some onMessage) ->
              count is_onMessage (emitted w w') = 1
              /\ formErrors w' = formErrors w)
          /\ (onMessage_returns env (Some onMessage) ->
              emitted w w' =
                [EvApiRegister (build_formData form);
                 EvOnMessage onMessage "nicknameError" text;
                 EvToast ToastError text]))
    /\ (onMessage_returns env (Some onMessage) ->
        r = Resolved false
        /\ w' = spec_failure_routing errors message fallback onMessage
                  (add_events w [EvApiRegister (build_formData form)])).
Proof.
  intros Hfail.
  destruct (register env form (Some onMessage) (Some dispatch) w)
    as [r w'] eqn:Hrun.
  exists r, w'. split; [done|]. split; [|split].
  - intros errs ->.
    rewrite (register_failed _ _ _ _ _ _ _ Hfail) in Hrun by done.
    injection Hrun as <- <-.
    unfold spec_failure_routing, add_events. trace_norm. done.
  - intros text -> -> Hnonempty.
    destruct (register_message_routed _ onMessage dispatch _ _ _ text Hfail
                (truthy_nonempty _ Hnonempty))
      as (r1 & w1 & l & Hrun1 & Htrace & Hplain).
    rewrite Hrun in Hrun1. injection Hrun1 as <- <-.
    rewrite (emitted_app _ _ _ Htrace). split; [by exists l|]. split.
    + intros Hp. destruct (Hplain Hp) as [Hcount Herrors].
      split; [|done]. count_norm. by rewrite Hcount.
    + intros Hret.
      rewrite (register_failed _ _ _ _ _ _ _ Hfail) in Hrun by done.
      injection Hrun as <- <-. revert Htrace.
      unfold spec_failure_routing, add_events, or_else.
      rewrite (truthy_nonempty _ Hnonempty). cbn.
      rewrite <- !app_assoc. cbn. intros Htrace.
      by apply app_inv_head in Htrace as <-.
  - intros Hret.
    rewrite (register_failed _ _ _ _ _ _ _ Hfail) in Hrun by done.
    by injection Hrun as <- <-.
Qed.

(** C9: a [register] whose response reports success without a credential
    (no [accessToken], or an empty one) shows the success notification and
    returns [true]; nothing is stored and no refresh runs, so the stored
    credential and the session are unchanged. *)
Theorem register_success_without_token form onMessage setErrors'
    (w : World) d :
  authAPI_register env w (build_formData form) = Resolved (Some d) ->
  success d = true ->
  truthy (reg_accessToken d) = None ->
  exists w',
    register env form onMessage setErrors' w = (Resolved true, w')
    /\ stored_token w' = stored_token w
    /\ user w' = user w
    /\ formErrors w' = formErrors w
    /\ emitted w w' =
         [EvApiRegister (build_formData form);
          EvToast ToastSuccess (or_else (reg_message d) "회원가입 성공!")].
Proof.
  intros Hdata Hok Htoken. unfold register.
  set (formData := build_formData form) in *. clearbody formData.
  js_run. rewrite Hdata; cbn. rewrite Hok; cbn. rewrite Htoken; cbn.
  eexists. split; [reflexivity|]. trace_norm. done.
Qed.

(** C10: when [register] merges the backend's field errors into the
    caller's error state, the new state is the spread of the previous state
    overridden by the backend's entries: every field the backend names gets
    the backend's message, every other field keeps its previous entry. *)
Theorem register_merge_preserves form onMessage dispatch (w : World)
    errs message fallback :
  RegisterFailure env w (build_formData form) (Some errs) message fallback ->
  exists w',
    register env form onMessage (Some dispatch) w = (Resolved false, w')
    /\ formErrors w' = spread (formErrors w) errs
    /\ (forall field text,
          errs !! field = Some text -> formErrors w' !! field = Some text)
    /\ (forall field,
          errs !! field = None ->
          formErrors w' !! field = formErrors w !! field).
Proof.
  intros Hfail.
  destruct (register_failed_errors form onMessage (Some dispatch) w
              _ _ _ Hfail) as (w' & Hrun & Herrors).
  exists w'. split; [exact Hrun|]. split; [exact Herrors|].
  rewrite Herrors. unfold spread. split.
  - intros field text Hfield. by apply lookup_union_Some_l.
  - intros field Hfield. by apply lookup_union_r.
Qed.


(** C5: for every stored credential the session refresh
    [updateUserFromToken] completes without raising; it publishes the user
    decoded from the stored credential, or absent when there is no
    credential or it does not decode; the push-token step adds only
    console and request events, and when it fails the error is logged and
    the published value and the stored credential are what they are
    without the failure. *)
Theorem updateUserFromToken_never_raises (w : World) :
  exists w' l,
    updateUserFromToken env w = (Resolved tt, w')
    /\ user w' = match stored_token w with
                 | Some t => decodeToken env t
                 | None => None
                 end
    /\ stored_token w' = stored_token w
    /\ formErrors w' = formErrors w
    /\ trace w' = trace w ++ l
    /\ Forall (fun ev => is_push_event ev = true) l
    /\ count is_toast l = 0
    /\ (forall e pre,
          PushFailure env (published env w) e pre ->
          l = pre ++ [EvConsoleError "❌ FCM 토큰 등록 실패:" e]).
Proof.
  destruct (updateUserFromToken_run w) as (l & Hrun & Hl).
  eexists _, l. split; [exact Hrun|]. cbn.
  repeat split; try done.
  - by apply count_push_events; [intros []|].
  - intros e pre Hfail. revert Hrun.
    unfold updateUserFromToken. js_run.
    destruct Hfail as [e Hfcm|fcmToken t e Hfcm Ht Hreg];
      unfold published, add_events in *; cbn in *; rewrite Hfcm; cbn.
    + rewrite <- !app_assoc; cbn.
      intros [= H]. by apply app_inv_head in H.
    + rewrite Ht; cbn. rewrite Hreg; cbn. rewrite <- !app_assoc; cbn.
      intros [= H]. by apply app_inv_head in H.
Qed.

(** C4: every [logout] clears the stored credential, sets the session to
    absent and shows one informational notification, whatever the backend
    answers; a rejected backend call is written to the console only. *)
Theorem logout_always_clears (w : World) :
  exists w',
    logout env w = (Resolved tt, w')
    /\ stored_token w' = None
    /\ user w' = None
    /\ formErrors w' = formErrors w
    /\ emitted w w' =
         [EvApiLogout]
         ++ match authAPI_logout env w with
            | Resolved _ => []
            | Rejected e => [EvConsoleError "Logout error:" e]
            end
         ++ [EvToast ToastInfo "로그아웃 되었습니다."]
    /\ count is_toast (emitted w w') = 1.
Proof.
  unfold logout. js_run.
  destruct (authAPI_logout env w) as [[]|e]; cbn;
    (eexists; split; [reflexivity|]); trace_norm; done.
Qed.

(** ** The shape of every call *)

Lemma truthy_inv (s : option string) (t : string) :
  truthy s = Some t -> s = Some t /\ t <> "".
Proof.
  destruct s as [s'|]; cbn; [|done].
  destruct (decide (s' = "")); [done|]. by intros [= ->].
Qed.

(** Close a [signed_in] goal from the truthiness test on the token. *)
Ltac signed_in_solve :=
  unfold signed_in; cbn; eexists; repeat split;
  match goal with
  | H : truthy _ = Some _ |- _ => by apply truthy_inv in H as [_ ?]
  end.

Lemma forceLogin_shape email password onSuccess (w : World) :
  exists b w' l,
    forceLogin env email password onSuccess w = (Resolved b, w')
    /\ trace w' = trace w ++ EvApiForceLogin email password :: l
    /\ formErrors w' = formErrors w
    /\ count is_confirm l = 0
    /\ count is_login_request l = 0
    /\ count is_forceLogin_request l = 0
    /\ ((stored_token w' = stored_token w /\ user w' = user w)
        \/ signed_in env w')
    /\ (b = true -> signed_in env w')
    /\ (onSuccess_returns env onSuccess ->
        count is_toast l = 1
        /\ count is_error_toast l = (if b then 0 else 1)
        /\ count is_onSuccess l
           = (if b then match onSuccess with Some _ => 1 | None => 0 end
              else 0)
        /\ (b = false ->
            stored_token w' = stored_token w /\ user w' = user w)).
Proof.
  unfold forceLogin. js_run. js_cases;
    (eexists _, _, _; split; [reflexivity|]; trace_norm;
     split; [reflexivity|]; count_norm;
     split; [done|]; split; [done|]; split; [done|]; split; [done|];
     split; [first [ by left | right; signed_in_solve ]|];
     split; [first [ done | intros _; signed_in_solve ]|];
     intros Hret; try callback_contra; by repeat split).
Qed.

Lemma login_shape email password onSuccess (w : World) :
  exists b w' l,
    login env email password onSuccess w = (Resolved b, w')
    /\ trace w' = trace w ++ EvApiLogin email password :: l
    /\ formErrors w' = formErrors w
    /\ count is_confirm l <= 1
    /\ count is_login_request l = 0
    /\ count is_forceLogin_request l <= 1
    /\ ((stored_token w' = stored_token w /\ user w' = user w)
        \/ signed_in env w')
    /\ (b = true -> signed_in env w')
    /\ (onSuccess_returns env onSuccess ->
        (count is_toast l = 1
         \/ (b = false /\ exists text, l = [EvConfirm text]))
        /\ count is_error_toast l <= (if b then 0 else 1)
        /\ count is_onSuccess l
           = (if b then match onSuccess with Some _ => 1 | None => 0 end
              else 0)
        /\ (b = false ->
            stored_token w' = stored_token w /\ user w' = user w)).
Proof.
  unfold login. js_run. js_cases;
    try (eexists _, _, _; split; [reflexivity|]; trace_norm;
         split; [reflexivity|]; count_norm;
         split; [done|]; split; [lia|]; split; [done|]; split; [lia|];
         split; [first [ by left | right; signed_in_solve ]|];
         split; [first [ done | intros _; signed_in_solve ]|];
         intros Hret; try callback_contra;
         repeat split; try done; try lia; eauto).
  all: try done.
  all: match goal with
       | |- context [forceLogin env ?e ?p ?c ?w0] =>
           destruct (forceLogin_shape e p c w0)
             as (b & w' & ? & -> & Htrace & Hfe & Hconfirm & Hlogin & Hforce
                 & Hstate & Hgranted & Hnormal)
       end; cbn in *;
    rewrite <- !app_assoc in Htrace; cbn in Htrace;
    eexists b, w', _; (split; [reflexivity|]); (split; [exact Htrace|]);
    count_norm; rewrite Hconfirm, Hlogin, Hforce;
    (split; [done|]); (split; [lia|]); (split; [done|]); (split; [lia|]);
    (split;
     [destruct Hstate as [[Htoken Huser]|Hsigned]; [|by right];
      first [ by left
            | right; unfold signed_in; eexists;
              (split; [|split; [exact Htoken|exact Huser]]);
              match goal with
              | H : truthy _ = Some _ |- _ =>
                  by apply truthy_inv in H as [_ ?]
              end ]|]);
    (split; [done|]);
    intros Hret; try callback_contra;
    destruct (Hnormal Hret) as (Htoast & Herr & Hcb & Hsame);
    rewrite Htoast, Herr, Hcb;
    repeat split; try done; try lia; eauto;
    first [ by apply Hsame | destruct b; lia ].
Qed.

Lemma spread_lookup (prev errs : FormErrors) (field : string) :
  (errs ∪ prev) !! field = prev !! field
  \/ exists text, (errs ∪ prev) !! field = Some text.
Proof.
  destruct (errs !! field) as [text|] eqn:Hfield.
  - right. exists text. by apply lookup_union_Some_l.
  - left. by apply lookup_union_r.
Qed.

Lemma register_shape form onMessage setErrors' (w : World) :
  exists r w' l,
    register env form onMessage setErrors' w = (r, w')
    /\ trace w' = trace w ++ EvApiRegister (build_formData form) :: l
    /\ count is_register_request l = 0
    /\ (forall field,
          formErrors w' !! field = formErrors w !! field
          \/ (r <> Resolved true /\ setErrors' <> None
              /\ exists text, formErrors w' !! field = Some text))
    /\ (r = Resolved true \/ setErrors' = None ->
        formErrors w' = formErrors w)
    /\ (is_Some (stored_token w) -> is_Some (stored_token w'))
    /\ (in_sync env w -> in_sync env w')
    /\ (r <> Resolved true ->
        stored_token w' = stored_token w /\ user w' = user w)
    /\ (onMessage_returns env onMessage ->
        exists b,
          r = Resolved b
          /\ count is_toast l = 1
          /\ count is_error_toast l = (if b then 0 else 1)
          /\ count is_onMessage l
             <= (if b then 0
                 else match onMessage with Some _ => 1 | None => 0 end)).
Proof.
  unfold register, in_sync.
  set (formData := build_formData form) in *. clearbody formData.
  js_run. js_cases;
    (eexists _, _, _; split; [reflexivity|]; trace_norm;
     split; [reflexivity|]; count_norm;
     split; [done|];
     split;
     [intros field; unfold spread;
      first [ by left
            | match goal with
              | |- context [(?errs ∪ ?prev) !! field] =>
                  destruct (spread_lookup prev errs field)
                    as [->|[text ->]]; [by left|right; by eauto]
              end ]|];
     split; [by intros [|]|];
     split; [done|]; split; [done|]; split; [done|];
     intros Hret; try callback_contra;
     eexists; repeat split; lia).
Qed.

(** What one refresh asks of the push-token collaborators. *)
Lemma updateUserFromToken_push (w : World) :
  exists l,
    updateUserFromToken env w
    = (Resolved tt,
       mkWorld (stored_token w) (stored_token w ?. decodeToken env)
               (formErrors w) (trace w ++ l))
    /\ count is_fcm_request l = 1
    /\ match firebase_getFcmToken env (published env w) with
       | Resolved fcmToken =>
           match truthy fcmToken with
           | Some t =>
               count is_push_registration l = 1
               /\ (authAPI_registerPushToken env
                     (add_events (published env w) [EvGetFcmToken]) t
                   = Resolved tt ->
                   l = [EvGetFcmToken; EvApiRegisterPushToken t;
                        EvConsoleLog "✅ FCM 토큰 등록 완료"])
           | None => l = [EvGetFcmToken]
           end
       | Rejected e =>
           l = [EvGetFcmToken; EvConsoleError "❌ FCM 토큰 등록 실패:" e]
       end.
Proof.
  unfold updateUserFromToken, published, add_events. js_run.
  destruct (firebase_getFcmToken env _) as [fcmToken|e]; cbn.
  - destruct (truthy fcmToken) as [t|]; cbn.
    + destruct (authAPI_registerPushToken env _ t) as [[]|e]; cbn;
        (eexists; split; [by rewrite <- !app_assoc|]); by cbn.
    + eexists; split; [reflexivity|]; by cbn.
  - eexists; split; [by rewrite <- !app_assoc|]; by cbn.
Qed.

(** ** Further properties of the provider *)

(** X1: a [login] rejected with any status other than 409, or with no
    response at all, asks nothing and escalates nothing: after the request
    it shows one error notification, the backend's message or the generic
    text, and returns [false]. *)
Theorem login_rejected_without_conflict email password onSuccess
    (w : World) e :
  authAPI_login env w email password = Rejected e ->
  response e ?. status <> Some 409%Z ->
  login env email password onSuccess w
  = (Resolved false,
     add_events w
       [EvApiLogin email password;
        EvToast ToastError
          (or_else (response e ?. err_data ?. err_message)
                   "로그인 중 오류 발생")]).
Proof.
  intros Hrej Hstatus. unfold login, add_events. js_run.
  rewrite Hrej; cbn. rewrite decide_False by done; cbn.
  by rewrite <- app_assoc.
Qed.

(** X2: a [login] answered without a grant, [loggedIn] false or no
    (or an empty) [accessToken], stores nothing and runs no refresh: after
    the request it shows one error notification, the backend's message or
    the sign-in failure text, and returns [false]. *)
Theorem login_not_granted email password onSuccess (w : World) d :
  authAPI_login env w email password = Resolved (Some d) ->
  loggedIn d = false \/ truthy (accessToken d) = None ->
  login env email password onSuccess w
  = (Resolved false,
     add_events w
       [EvApiLogin email password;
        EvToast ToastError (or_else (message d) "로그인에 실패했습니다.")]).
Proof.
  intros Hdata Hnot. unfold login, add_events. js_run.
  rewrite Hdata; cbn.
  assert ((if loggedIn d then truthy (accessToken d) else None) = None)
    as -> by (destruct Hnot as [-> | ->]; [done|by destruct (loggedIn d)]).
  cbn. by rewrite <- app_assoc.
Qed.

(** X3: a response without a body.  [login] reads [data.message] and so
    ends in its catch block with the generic error text; [forceLogin]
    reads [data?.message] and shows its failure text; [register] ends in
    its catch block, where no callback is invoked.  All three return
    [false] and change nothing else. *)
Theorem response_without_body (w : World) :
  (forall email password onSuccess,
     authAPI_login env w email password = Resolved None ->
     login env email password onSuccess w
     = (Resolved false,
        add_events w
          [EvApiLogin email password;
           EvToast ToastError "로그인 중 오류 발생"]))
  /\ (forall email password onSuccess,
        authAPI_forceLogin env w email password = Resolved None ->
        forceLogin env email password onSuccess w
        = (Resolved false,
           add_events w
             [EvApiForceLogin email password;
              EvToast ToastError "강제 로그인 실패"]))
  /\ (forall form onMessage setErrors',
        authAPI_register env w (build_formData form) = Resolved None ->
        register env form onMessage setErrors' w
        = (Resolved false,
           add_events w
             [EvApiRegister (build_formData form);
              EvToast ToastError "회원가입 중 오류 발생"])).
Proof.
  split; [|split].
  - intros email password onSuccess Hdata. unfold login, add_events. js_run.
    rewrite Hdata; cbn. rewrite decide_False by done; cbn.
    by rewrite <- app_assoc.
  - intros email password onSuccess Hdata.
    unfold forceLogin, add_events. js_run.
    rewrite Hdata; cbn. by rewrite <- app_assoc.
  - intros form onMessage setErrors' Hdata. unfold register, add_events.
    set (formData := build_formData form) in *. clearbody formData.
    js_run. rewrite Hdata; cbn.
    destruct setErrors', onMessage; cbn; by rewrite <- app_assoc.
Qed.

(** X4: a [forceLogin] that is not granted.  Answered without a grant it
    shows the backend's message or the forced sign-in failure text;
    rejected without an HTTP response it shows the generic forced sign-in
    error text.  Either way it returns [false] after that one
    notification. *)
Theorem forceLogin_not_granted email password onSuccess (w : World) :
  (forall d,
     authAPI_forceLogin env w email password = Resolved (Some d) ->
     loggedIn d = false \/ truthy (accessToken d) = None ->
     forceLogin env email password onSuccess w
     = (Resolved false,
        add_events w
          [EvApiForceLogin email password;
           EvToast ToastError (or_else (message d) "강제 로그인 실패")]))
  /\ (forall e,
        authAPI_forceLogin env w email password = Rejected e ->
        response e = None ->
        forceLogin env email password onSuccess w
        = (Resolved false,
           add_events w
             [EvApiForceLogin email password;
              EvToast ToastError "강제 로그인 중 오류 발생"])).
Proof.
  split.
  - intros d Hdata Hnot. unfold forceLogin, add_events. js_run.
    rewrite Hdata; cbn.
    assert ((if loggedIn d then truthy (accessToken d) else None) = None)
      as -> by (destruct Hnot as [-> | ->]; [done|by destruct (loggedIn d)]).
    cbn. by rewrite <- app_assoc.
  - intros e Hrej Hresp. unfold forceLogin, add_events. js_run.
    rewrite Hrej; cbn. rewrite Hresp; cbn.
    rewrite decide_False by done; cbn. by rewrite <- app_assoc.
Qed.

(** X5: a success callback that returns normally runs exactly when the
    sign-in succeeds, and then exactly once: a [login] or [forceLogin]
    that returns [false] has not invoked it, one that returns [true] has
    invoked it once, also when [login] succeeds through the forced
    sign-in. *)
Theorem onSuccess_iff_signed_in email password cb (w : World) :
  onSuccess_returns env (Some cb) ->
  (exists b w',
     login env email password (Some cb) w = (Resolved b, w')
     /\ count is_onSuccess (emitted w w') = (if b then 1 else 0))
  /\ (exists b w',
        forceLogin env email password (Some cb) w = (Resolved b, w')
        /\ count is_onSuccess (emitted w w') = (if b then 1 else 0)).
Proof.
  intros Hret. split.
  - destruct (login_shape email password (Some cb) w)
      as (b & w' & l & Hrun & Htrace & _ & _ & _ & _ & _ & _ & Hnormal).
    destruct (Hnormal Hret) as (_ & _ & Hcb & _).
    exists b, w'. split; [exact Hrun|].
    rewrite (emitted_app _ _ _ Htrace). by count_norm.
  - destruct (forceLogin_shape email password (Some cb) w)
      as (b & w' & l & Hrun & Htrace & _ & _ & _ & _ & _ & _ & Hnormal).
    destruct (Hnormal Hret) as (_ & _ & Hcb & _).
    exists b, w'. split; [exact Hrun|].
    rewrite (emitted_app _ _ _ Htrace). by count_norm.
Qed.

(** X6: with callbacks that return normally, every [forceLogin] and every
    [register] shows exactly one notification, an error notification
    exactly when the call returns [false].  A [login] shows exactly one
    notification too, except when the conflict prompt is declined: then
    the request and the prompt are all that happened. *)
Theorem one_notification_per_call (w : World) :
  (forall email password onSuccess,
     onSuccess_returns env onSuccess ->
     exists b w',
       forceLogin env email password onSuccess w = (Resolved b, w')
       /\ count is_toast (emitted w w') = 1
       /\ count is_error_toast (emitted w w') = (if b then 0 else 1))
  /\ (forall form onMessage setErrors',
        onMessage_returns env onMessage ->
        exists b w',
          register env form onMessage setErrors' w = (Resolved b, w')
          /\ count is_toast (emitted w w') = 1
          /\ count is_error_toast (emitted w w') = (if b then 0 else 1))
  /\ (forall email password onSuccess,
        onSuccess_returns env onSuccess ->
        exists b w',
          login env email password onSuccess w = (Resolved b, w')
          /\ count is_error_toast (emitted w w') <= (if b then 0 else 1)
          /\ (count is_toast (emitted w w') = 1
              \/ (b = false
                  /\ exists text,
                       emitted w w'
                       = [EvApiLogin email password; EvConfirm text]))).
Proof.
  split; [|split].
  - intros email password onSuccess Hret.
    destruct (forceLogin_shape email password onSuccess w)
      as (b & w' & l & Hrun & Htrace & _ & _ & _ & _ & _ & _ & Hnormal).
    destruct (Hnormal Hret) as (Htoast & Herr & _).
    exists b, w'. split; [exact Hrun|].
    rewrite (emitted_app _ _ _ Htrace). by count_norm.
  - intros form onMessage setErrors' Hret.
    destruct (register_shape form onMessage setErrors' w)
      as (r & w' & l & Hrun & Htrace & _ & _ & _ & _ & _ & _ & Hnormal).
    destruct (Hnormal Hret) as (b & -> & Htoast & Herr & _).
    exists b, w'. split; [exact Hrun|].
    rewrite (emitted_app _ _ _ Htrace). by count_norm.
  - intros email password onSuccess Hret.
    destruct (login_shape email password onSuccess w)
      as (b & w' & l & Hrun & Htrace & _ & _ & _ & _ & _ & _ & Hnormal).
    destruct (Hnormal Hret) as (Htoast & Herr & _).
    exists b, w'. split; [exact Hrun|].
    rewrite (emitted_app _ _ _ Htrace). count_norm. split; [exact Herr|].
    destruct Htoast as [Htoast|(-> & text & ->)]; [by left|].
    right. split; [done|]. by exists text.
Qed.

(** X7: [true] means signed in.  Whenever [login] or [forceLogin]
    returns [true], a non-empty credential is stored and the session is
    the user that credential decodes to. *)
Theorem true_means_signed_in email password onSuccess (w : World) :
  (forall w',
     login env email password onSuccess w = (Resolved true, w') ->
     exists token,
       token <> "" /\ stored_token w' = Some token
       /\ user w' = decodeToken env token)
  /\ (forall w',
        forceLogin env email password onSuccess w = (Resolved true, w') ->
        exists token,
          token <> "" /\ stored_token w' = Some token
          /\ user w' = decodeToken env token).
Proof.
  split; intros w1 Hrun1.
  - destruct (login_shape email password onSuccess w)
      as (b & w' & l & Hrun & _ & _ & _ & _ & _ & _ & Hgranted & _).
    rewrite Hrun1 in Hrun. injection Hrun as <- <-. by apply Hgranted.
  - destruct (forceLogin_shape email password onSuccess w)
      as (b & w' & l & Hrun & _ & _ & _ & _ & _ & _ & Hgranted & _).
    rewrite Hrun1 in Hrun. injection Hrun as <- <-. by apply Hgranted.
Qed.

Lemma emitted_same (w : World) : emitted w w = [].
Proof. unfold emitted. apply drop_all. Qed.

(** X8: the session never disagrees with the stored credential.  If the
    session is what the stored credential decodes to, it still is after
    any call of [login], [forceLogin], [register], [logout],
    [updateUserFromToken] or the mount effect, whatever their outcome. *)
Theorem session_stays_in_sync (w : World) :
  in_sync env w ->
  (forall email password onSuccess,
     in_sync env (login env email password onSuccess w).2)
  /\ (forall email password onSuccess,
        in_sync env (forceLogin env email password onSuccess w).2)
  /\ (forall form onMessage setErrors',
        in_sync env (register env form onMessage setErrors' w).2)
  /\ in_sync env (logout env w).2
  /\ in_sync env (updateUserFromToken env w).2
  /\ in_sync env (onMount env w).2.
Proof.
  intros Hsync. repeat split.
  - intros email password onSuccess.
    destruct (login_shape email password onSuccess w)
      as (b & w' & l & -> & _ & _ & _ & _ & _ & Hstate & _).
    cbn. unfold in_sync in *.
    destruct Hstate as [[-> ->]|(token & _ & -> & ->)]; done.
  - intros email password onSuccess.
    destruct (forceLogin_shape email password onSuccess w)
      as (b & w' & l & -> & _ & _ & _ & _ & _ & Hstate & _).
    cbn. unfold in_sync in *.
    destruct Hstate as [[-> ->]|(token & _ & -> & ->)]; done.
  - intros form onMessage setErrors'.
    destruct (register_shape form onMessage setErrors' w)
      as (r & w' & l & -> & _ & _ & _ & _ & _ & Hkeep & _).
    by apply Hkeep.
  - unfold logout. js_run. by destruct (authAPI_logout env w) as [[]|e].
  - by destruct (updateUserFromToken_run w) as (l & -> & _).
  - unfold onMount. js_run. destruct (truthy (stored_token w)); cbn; [|done].
    by destruct (updateUserFromToken_run w) as (l & -> & _).
Qed.

(** X9: the mount effect.  With no stored credential, or an empty one, it
    does nothing at all.  With a credential it is exactly one refresh: the
    session becomes the user the credential decodes to and the push-token
    provider is asked once.  It never changes the credential and never
    shows a notification. *)
Theorem onMount_restores_session (w : World) :
  exists w',
    onMount env w = (Resolved tt, w')
    /\ stored_token w' = stored_token w
    /\ count is_toast (emitted w w') = 0
    /\ (truthy (stored_token w) = None -> w' = w)
    /\ (forall token,
          stored_token w = Some token -> token <> "" ->
          onMount env w = updateUserFromToken env w
          /\ user w' = decodeToken env token
          /\ count is_fcm_request (emitted w w') = 1).
Proof.
  destruct (updateUserFromToken_push w) as (l & Hrun & Hfcm & _).
  destruct (updateUserFromToken_run w) as (l' & Hrun' & Hl).
  rewrite Hrun in Hrun'. injection Hrun' as Heq.
  apply app_inv_head in Heq as <-.
  unfold onMount. js_run.
  destruct (truthy (stored_token w)) as [t|] eqn:Ht; cbn.
  - rewrite Hrun. eexists. split; [reflexivity|]. trace_norm.
    split; [done|]. split; [by count_norm|]. split; [done|].
    by intros token ->.
  - exists w. split; [done|]. rewrite emitted_same.
    split; [done|]. split; [done|]. split; [done|].
    intros token Htoken Hnonempty.
    by rewrite Htoken, truthy_nonempty in Ht.
Qed.

(** X10: the federated sign-in only navigates: it leaves the credential
    and the session alone, calls no backend, and goes to the authorization
    path of the chosen provider, which is a different one for each
    provider. *)
Theorem loginWithSocialMedia_navigates provider (w : World) :
  exists w',
    loginWithSocialMedia provider w = (Resolved tt, w')
    /\ stored_token w' = stored_token w
    /\ user w' = user w
    /\ emitted w w'
       = [EvNavigate
            (String.append "/oauth2/authorization/" (provider_name provider))]
    /\ (forall other,
          loginWithSocialMedia other w = loginWithSocialMedia provider w ->
          other = provider).
Proof.
  unfold loginWithSocialMedia. js_run.
  eexists. split; [reflexivity|]. trace_norm. repeat split.
  intros other [= Heq]. apply app_inv_head in Heq.
  by destruct other, provider.
Qed.

(** X11: a [register] that succeeds with a credential signs the new
    user in: the credential is stored, the refresh runs on it, one success
    notification follows and the result is [true]; the message callback
    and the error setter are not used. *)
Theorem register_success_with_token form onMessage setErrors'
    (w : World) d token :
  authAPI_register env w (build_formData form) = Resolved (Some d) ->
  success d = true ->
  reg_accessToken d = Some token ->
  token <> "" ->
  exists w2 w',
    updateUserFromToken env
      (credential_stored token
         (add_events w [EvApiRegister (build_formData form)]))
    = (Resolved tt, w2)
    /\ register env form onMessage setErrors' w = (Resolved true, w')
    /\ w' = add_events w2
              [EvToast ToastSuccess (or_else (reg_message d) "회원가입 성공!")]
    /\ stored_token w' = Some token
    /\ user w' = decodeToken env token
    /\ formErrors w' = formErrors w
    /\ count is_onMessage (emitted w w') = 0.
Proof.
  intros Hdata Hok Htoken Hnonempty.
  unfold register, credential_stored, add_events.
  set (formData := build_formData form) in *. clearbody formData.
  js_run. rewrite Hdata; cbn. rewrite Hok; cbn.
  rewrite Htoken, (truthy_nonempty _ Hnonempty); cbn.
  match goal with
  | |- context [updateUserFromToken env ?w0] =>
      destruct (updateUserFromToken_run w0) as (l & -> & Hl)
  end; cbn.
  eexists _, _. split; [reflexivity|]. split; [reflexivity|].
  trace_norm. repeat split.
  match goal with
  | |- length (List.filter ?p ?x) = _ => change (count p x = 0)
  end.
  by count_norm.
Qed.

(** X12: a [register] called without callbacks still fails gracefully:
    whatever the failure payload holds, nothing but the request and one
    error notification happens, and the result is [false]. *)
Theorem register_failure_without_callbacks form (w : World)
    errors message fallback :
  RegisterFailure env w (build_formData form) errors message fallback ->
  register env form None None w
  = (Resolved false,
     add_events w
       [EvApiRegister (build_formData form);
        EvToast ToastError (or_else message fallback)]).
Proof.
  intros Hfail. unfold register, add_events.
  set (formData := build_formData form) in *. clearbody formData.
  js_run.
  destruct Hfail as [d Hdata Hfailed|e Hrej|Hdata].
  - rewrite Hdata; cbn. rewrite Hfailed; cbn.
    destruct (reg_errors d), (truthy (reg_message d)); cbn;
      by rewrite <- app_assoc.
  - rewrite Hrej; cbn.
    destruct (response e ?. err_data ?. err_errors),
      (truthy (response e ?. err_data ?. err_message)); cbn;
      by rewrite <- app_assoc.
  - rewrite Hdata; cbn. by rewrite <- app_assoc.
Qed.

(** X13: an empty [errors] object in the failure payload counts as field
    errors: the message callback is not invoked although a message is
    present, and merging the empty object leaves the caller's errors as
    they were; only the error notification is shown. *)
Theorem register_empty_errors_object form onMessage dispatch (w : World)
    message fallback :
  RegisterFailure env w (build_formData form) (Some ∅) message fallback ->
  register env form (Some onMessage) (Some dispatch) w
  = (Resolved false,
     add_events w
       [EvApiRegister (build_formData form);
        EvToast ToastError (or_else message fallback)]).
Proof.
  intros Hfail. rewrite (register_failed _ _ _ _ _ _ _ Hfail) by done.
  unfold spec_failure_routing, add_events, spread; cbn.
  rewrite (left_id_L ∅ (∪)). by rewrite <- app_assoc.
Qed.

(** X14: submitting again does not pile errors up.  When two [register]
    calls in a row fail with the same field errors, the caller's error
    state after the second is the one after the first. *)
Theorem register_merge_idempotent form form' onMessage onMessage' dispatch
    (w w1 : World) errs message fallback message' fallback' :
  RegisterFailure env w (build_formData form) (Some errs) message fallback ->
  register env form onMessage (Some dispatch) w = (Resolved false, w1) ->
  RegisterFailure env w1 (build_formData form') (Some errs)
                  message' fallback' ->
  exists w2,
    register env form' onMessage' (Some dispatch) w1 = (Resolved false, w2)
    /\ formErrors w2 = formErrors w1.
Proof.
  intros Hfail Hrun Hfail'.
  destruct (register_failed_errors form onMessage (Some dispatch) w
              _ _ _ Hfail) as (w1' & Hrun1 & Herrors1).
  rewrite Hrun in Hrun1. injection Hrun1 as <-.
  destruct (register_failed_errors form' onMessage' (Some dispatch) w1
              _ _ _ Hfail') as (w2 & Hrun2 & Herrors2).
  cbn in Herrors1, Herrors2.
  exists w2. split; [exact Hrun2|].
  rewrite Herrors2, Herrors1. unfold spread.
  by rewrite (assoc_L (∪)), (idemp_L (∪)).
Qed.

(** X15: [register] never deletes an entry of the caller's error state.
    After any call, whatever its outcome, the entry of each field is
    either exactly the one before the call or an entry written through
    the error setter by a call that did not succeed; a call that succeeds,
    or one without an error setter, leaves the state exactly as it was. *)
Theorem register_never_clears_errors form onMessage setErrors' (w : World) :
  exists r w',
    register env form onMessage setErrors' w = (r, w')
    /\ (forall field,
          formErrors w' !! field = formErrors w !! field
          \/ (r <> Resolved true /\ setErrors' <> None
              /\ exists text, formErrors w' !! field = Some text))
    /\ (r = Resolved true \/ setErrors' = None ->
        formErrors w' = formErrors w).
Proof.
  destruct (register_shape form onMessage setErrors' w)
    as (r & w' & l & Hrun & _ & _ & Hkeep & Hsame & _).
  by exists r, w'.
Qed.

(** X16: after [logout] the session cannot come back by itself: a refresh
    publishes absent again and the mount effect does nothing, until a new
    credential is stored. *)
Theorem logout_then_refresh (w : World) :
  exists w1 w2,
    logout env w = (Resolved tt, w1)
    /\ updateUserFromToken env w1 = (Resolved tt, w2)
    /\ stored_token w2 = None
    /\ user w2 = None
    /\ onMount env w1 = (Resolved tt, w1).
Proof.
  unfold logout, onMount. js_run.
  destruct (authAPI_logout env w) as [[]|e]; cbn;
    match goal with
    | |- context [(Resolved (), ?w0) = (Resolved (), _)] =>
        destruct (updateUserFromToken_run w0) as (l & Hrun & _);
        exists w0; eexists; (split; [reflexivity|]);
        (split; [exact Hrun|]); done
    end.
Qed.

(** X17: the session survives a reload.  After a granted [login],
    whether or not its success callback throws, when the page is loaded
    again the mount effect restores the same session from the stored
    credential; and when the callback returns normally that [login]
    returned [true]. *)
Theorem session_survives_reload email password onSuccess (w : World) d token :
  authAPI_login env w email password = Resolved (Some d) ->
  loggedIn d = true ->
  accessToken d = Some token ->
  token <> "" ->
  exists b w' w'',
    login env email password onSuccess w = (Resolved b, w')
    /\ (onSuccess_returns env onSuccess -> b = true)
    /\ onMount env (reload w') = (Resolved tt, w'')
    /\ stored_token w'' = stored_token w'
    /\ user w'' = user w'.
Proof.
  intros Hdata Hin Htoken Hnonempty.
  assert (truthy (accessToken d) = Some token) as Htruthy
    by (rewrite Htoken; by apply truthy_nonempty).
  assert (exists b w',
            login env email password onSuccess w = (Resolved b, w')
            /\ (onSuccess_returns env onSuccess -> b = true)
            /\ signed_in env w') as (b & w' & Hlogin & Htrue & Hsigned).
  { unfold login. js_run. rewrite Hdata; cbn. rewrite Hin, Htruthy; cbn.
    js_cases;
      try (eexists _, _; split; [reflexivity|]; split;
           [intros Hret; try callback_contra; done|];
           unfold signed_in; cbn; by eauto).
    all: try done.
    all: match goal with
         | |- context [forceLogin env ?e ?p ?c ?w0] =>
             destruct (forceLogin_shape e p c w0)
               as (b & w' & ? & -> & _ & _ & _ & _ & _ & Hstate & _)
         end; cbn in *; exists b, w'; (split; [reflexivity|]); split;
      [ intros Hret; callback_contra
      | destruct Hstate as [[Ht Hu]|Hsigned]; [|done];
        exists token; by rewrite Ht, Hu ]. }
  destruct Hsigned as (t & Ht & Hstored & Huser).
  destruct (updateUserFromToken_run (reload w')) as (l & Hrun & _).
  unfold reload in Hrun; cbn in Hrun. rewrite Hstored in Hrun; cbn in Hrun.
  exists b, w', (mkWorld (Some t) (decodeToken env t) ∅ (trace w' ++ l)).
  split; [exact Hlogin|]. split; [exact Htrue|].
  unfold onMount, reload. js_run. rewrite Hstored; cbn.
  rewrite decide_False by done; cbn. rewrite Hrun.
  split; [reflexivity|]. by rewrite Huser.
Qed.

(** X18: no call loops or repeats a request.  A [login] sends exactly
    one sign-in request, asks at most one confirmation and makes at most
    one forced sign-in request; a [forceLogin] sends exactly one forced
    sign-in request, asks nothing and never falls back to [login]; a
    [register] sends exactly one registration request, also when it does
    not return. *)
Theorem requests_are_bounded (w : World) :
  (forall email password onSuccess,
     exists b w',
       login env email password onSuccess w = (Resolved b, w')
       /\ count is_login_request (emitted w w') = 1
       /\ count is_confirm (emitted w w') <= 1
       /\ count is_forceLogin_request (emitted w w') <= 1)
  /\ (forall email password onSuccess,
        exists b w',
          forceLogin env email password onSuccess w = (Resolved b, w')
          /\ count is_forceLogin_request (emitted w w') = 1
          /\ count is_confirm (emitted w w') = 0
          /\ count is_login_request (emitted w w') = 0)
  /\ (forall form onMessage setErrors',
        exists r w',
          register env form onMessage setErrors' w = (r, w')
          /\ count is_register_request (emitted w w') = 1).
Proof.
  split; [|split].
  - intros email password onSuccess.
    destruct (login_shape email password onSuccess w)
      as (b & w' & l & Hrun & Htrace & _ & Hconfirm & Hlogin & Hforce & _).
    exists b, w'. split; [exact Hrun|].
    rewrite (emitted_app _ _ _ Htrace). count_norm. by rewrite Hlogin.
  - intros email password onSuccess.
    destruct (forceLogin_shape email password onSuccess w)
      as (b & w' & l & Hrun & Htrace & _ & Hconfirm & Hlogin & Hforce & _).
    exists b, w'. split; [exact Hrun|].
    rewrite (emitted_app _ _ _ Htrace). count_norm. by rewrite Hforce.
  - intros form onMessage setErrors'.
    destruct (register_shape form onMessage setErrors' w)
      as (b & w' & l & Hrun & Htrace & Hreg & _).
    exists b, w'. split; [exact Hrun|].
    rewrite (emitted_app _ _ _ Htrace). count_norm. by rewrite Hreg.
Qed.

(** X19: the push-token step of a refresh.  Every refresh asks the
    provider for a push token exactly once.  Without a token (absent or
    empty) nothing is registered and nothing is logged; with a token
    exactly one registration request is sent, and its success is logged;
    a failing provider is logged and nothing is registered. *)
Theorem refresh_push_registration (w : World) :
  exists w' l,
    updateUserFromToken env w = (Resolved tt, w')
    /\ emitted w w' = l
    /\ count is_fcm_request l = 1
    /\ match firebase_getFcmToken env (published env w) with
       | Resolved fcmToken =>
           match truthy fcmToken with
           | Some t =>
               count is_push_registration l = 1
               /\ (authAPI_registerPushToken env
                     (add_events (published env w) [EvGetFcmToken]) t
                   = Resolved tt ->
                   l = [EvGetFcmToken; EvApiRegisterPushToken t;
                        EvConsoleLog "✅ FCM 토큰 등록 완료"])
           | None => l = [EvGetFcmToken]
           end
       | Rejected e =>
           l = [EvGetFcmToken; EvConsoleError "❌ FCM 토큰 등록 실패:" e]
       end.
Proof.
  destruct (updateUserFromToken_push w) as (l & Hrun & Hfcm & Hpush).
  eexists _, l. split; [exact Hrun|]. by rewrite emitted_add.
Qed.

(** X20: only [logout] clears the credential.  If a credential is stored,
    one is still stored after any [login], [forceLogin], [register],
    refresh or mount effect, whatever the outcome. *)
Theorem credential_survives (w : World) :
  is_Some (stored_token w) ->
  (forall email password onSuccess,
     is_Some (stored_token (login env email password onSuccess w).2))
  /\ (forall email password onSuccess,
        is_Some (stored_token (forceLogin env email password onSuccess w).2))
  /\ (forall form onMessage setErrors',
        is_Some (stored_token (register env form onMessage setErrors' w).2))
  /\ is_Some (stored_token (updateUserFromToken env w).2)
  /\ is_Some (stored_token (onMount env w).2).
Proof.
  intros Hstored. repeat split.
  - intros email password onSuccess.
    destruct (login_shape email password onSuccess w)
      as (b & w' & l & -> & _ & _ & _ & _ & _ & Hstate & _).
    cbn. destruct Hstate as [[-> _]|(token & _ & -> & _)]; done.
  - intros email password onSuccess.
    destruct (forceLogin_shape email password onSuccess w)
      as (b & w' & l & -> & _ & _ & _ & _ & _ & Hstate & _).
    cbn. destruct Hstate as [[-> _]|(token & _ & -> & _)]; done.
  - intros form onMessage setErrors'.
    destruct (register_shape form onMessage setErrors' w)
      as (r & w' & l & -> & _ & _ & _ & _ & Hkeep & _).
    by apply Hkeep.
  - by destruct (updateUserFromToken_run w) as (l & -> & _).
  - unfold onMount. js_run. destruct (truthy (stored_token w)); cbn; [|done].
    by destruct (updateUserFromToken_run w) as (l & -> & _).
Qed.

(** X21: a success callback that throws undoes the answer, not the
    sign-in.  When a granted [login] invokes a callback that throws (an
    error that is not a 409 response), the credential is already stored,
    the session set and the success notification shown; the catch block
    then shows an error notification and [login] returns [false]. *)
Theorem login_callback_throws email password cb (w : World) d token e :
  authAPI_login env w email password = Resolved (Some d) ->
  loggedIn d = true ->
  accessToken d = Some token ->
  token <> "" ->
  (forall w0, callback_onSuccess env w0 cb = Rejected e) ->
  response e ?. status <> Some 409%Z ->
  exists refresh w',
    login env email password (Some cb) w = (Resolved false, w')
    /\ stored_token w' = Some token
    /\ user w' = decodeToken env token
    /\ emitted w w' =
         EvApiLogin email password
         :: refresh
            ++ [EvToast ToastSuccess (or_else (message d) "로그인 성공!");
                EvOnSuccess cb;
                EvToast ToastError
                  (or_else (response e ?. err_data ?. err_message)
                           "로그인 중 오류 발생")]
    /\ Forall (fun ev => is_push_event ev = true) refresh.
Proof.
  intros Hdata Hin Htoken Hnonempty Hthrows Hstatus.
  unfold login. js_run. rewrite Hdata; cbn.
  rewrite Hin, Htoken, (truthy_nonempty _ Hnonempty); cbn.
  match goal with
  | |- context [updateUserFromToken env ?w0] =>
      destruct (updateUserFromToken_run w0) as (refresh & -> & Hpush)
  end; cbn.
  rewrite Hthrows; cbn. rewrite decide_False by done; cbn.
  exists refresh. eexists. split; [reflexivity|]. trace_norm. done.
Qed.

(** X22: the same in [forceLogin]: a throwing success callback leaves the
    forced sign-in in effect, with its success notification shown, and
    the catch block adds the error notification of the thrown error's
    status and returns [false]. *)
Theorem forceLogin_callback_throws email password cb (w : World) d token e :
  authAPI_forceLogin env w email password = Resolved (Some d) ->
  loggedIn d = true ->
  accessToken d = Some token ->
  token <> "" ->
  (forall w0, callback_onSuccess env w0 cb = Rejected e) ->
  exists refresh w',
    forceLogin env email password (Some cb) w = (Resolved false, w')
    /\ stored_token w' = Some token
    /\ user w' = decodeToken env token
    /\ emitted w w' =
         EvApiForceLogin email password
         :: refresh
            ++ [EvToast ToastSuccess (or_else (message d) "강제 로그인 성공!");
                EvOnSuccess cb;
                EvToast ToastError
                  (or_else (response e ?. err_data ?. err_message)
                     (if decide (response e ?. status = Some 401%Z)
                      then "이메일 또는 비밀번호 오류"
                      else "강제 로그인 중 오류 발생"))]
    /\ Forall (fun ev => is_push_event ev = true) refresh.
Proof.
  intros Hdata Hin Htoken Hnonempty Hthrows.
  unfold forceLogin. js_run. rewrite Hdata; cbn.
  rewrite Hin, Htoken, (truthy_nonempty _ Hnonempty); cbn.
  match goal with
  | |- context [updateUserFromToken env ?w0] =>
      destruct (updateUserFromToken_run w0) as (refresh & -> & Hpush)
  end; cbn.
  rewrite Hthrows; cbn.
  destruct (decide (response e ?. status = Some 401%Z)); cbn;
    (exists refresh; eexists; split; [reflexivity|]; trace_norm; done).
Qed.

(** X23: a message callback that throws.  In the branch of a declared
    failure the throw lands in the catch block of [register]: for an error
    without a response the notification is the generic one, not the
    backend's message, and the result is [false].  In the catch block
    itself nothing catches the throw: [register] rejects with the thrown
    error and shows no notification. *)
Theorem register_callback_throws form cb dispatch (w : World) e text :
  (forall w0 field message,
     callback_onMessage env w0 cb field message = Rejected e) ->
  text <> "" ->
  (forall d,
     authAPI_register env w (build_formData form) = Resolved (Some d) ->
     success d = false ->
     reg_errors d = None ->
     reg_message d = Some text ->
     response e = None ->
     register env form (Some cb) dispatch w
     = (Resolved false,
        add_events w
          [EvApiRegister (build_formData form);
           EvOnMessage cb "nicknameError" text;
           EvToast ToastError "회원가입 중 오류 발생"]))
  /\ (forall e',
        authAPI_register env w (build_formData form) = Rejected e' ->
        response e' ?. err_data ?. err_errors = None ->
        response e' ?. err_data ?. err_message = Some text ->
        register env form (Some cb) dispatch w
        = (Rejected e,
           add_events w
             [EvApiRegister (build_formData form);
              EvOnMessage cb "nicknameError" text])).
Proof.
  intros Hthrows Hnonempty. split.
  - intros d Hdata Hfailed Herrors Hmessage Hplain.
    unfold register, add_events.
    set (formData := build_formData form) in *. clearbody formData.
    js_run. rewrite Hdata; cbn. rewrite Hfailed; cbn.
    rewrite Herrors, Hmessage, (truthy_nonempty _ Hnonempty); cbn.
    rewrite Hthrows; cbn. rewrite Hplain; cbn.
    destruct dispatch; cbn; by rewrite <- !app_assoc.
  - intros e' Hrej Herrors Hmessage.
    unfold register, add_events.
    set (formData := build_formData form) in *. clearbody formData.
    js_run. rewrite Hrej; cbn.
    rewrite Herrors, Hmessage, (truthy_nonempty _ Hnonempty); cbn.
    rewrite Hthrows; cbn.
    destruct dispatch; cbn; by rewrite <- !app_assoc.
Qed.

End ProviderFacts.

(** ** The statements at sample collaborators *)

(** The example of the specification: [login("a@b.com","pw")] against a
    backend returning [{loggedIn: true, accessToken: "T"}], with a
    callback that returns. *)
Lemma login_success_example :
  exists w',
    login Scenario.healthy "a@b.com" "pw" (Some Scenario.on_success)
          Scenario.fresh
    = (Resolved true, w')
    /\ stored_token w' = Some "T"
    /\ user w' = Some Scenario.alice
    /\ count is_toast (emitted Scenario.fresh w') = 1.
Proof.
  destruct (login_success Scenario.healthy "a@b.com" "pw"
              (Some Scenario.on_success) Scenario.fresh
              Scenario.granted "T" eq_refl eq_refl eq_refl
              ltac:(discriminate) (fun _ _ _ => eq_refl))
    as (w2 & w' & _ & Hrun & _ & Htoken & Huser & Htoast & _).
  exists w'. repeat split; assumption.
Defined.

(** C1 as stated fails: with a success callback that throws, the granted
    [login] ends in its catch block and returns [false]. *)
Lemma login_success_with_throwing_callback_fails :
  ~ (forall env email password onSuccess (w : World) d token,
       authAPI_login env w email password = Resolved (Some d) ->
       loggedIn d = true ->
       accessToken d = Some token ->
       token <> "" ->
       exists w',
         login env email password onSuccess w = (Resolved true, w')
         /\ stored_token w' = Some token
         /\ user w' = decodeToken env token
         /\ count is_toast (emitted w w') = 1).
Proof.
  intros Hclaim.
  destruct (Hclaim
              (Scenario.with_throwing_callbacks Scenario.healthy
                 Scenario.network_error)
              "a@b.com" "pw" (Some Scenario.on_success) Scenario.fresh
              Scenario.granted "T" eq_refl eq_refl eq_refl
              ltac:(discriminate))
    as (w' & Hrun & _).
  vm_compute in Hrun. discriminate.
Qed.

(** C2 as stated fails: with the prompt declined no error notification is
    shown, so "exactly one" does not hold. *)
Lemma login_conflict_declined_one_error_toast_fails :
  ~ (forall env email password onSuccess (w : World) e r,
       authAPI_login env w email password = Rejected e ->
       response e = Some r ->
       status r = Some 409%Z ->
       window_confirm env (add_events w [EvApiLogin email password])
         (or_else (err_data r ?. err_message)
                  "다른 브라우저에서 로그인됨. 강제 로그인하시겠습니까?") = false ->
       exists w',
         login env email password onSuccess w = (Resolved false, w')
         /\ stored_token w' = stored_token w
         /\ user w' = user w
         /\ count is_error_toast (emitted w w') = 1
         /\ count is_forceLogin_request (emitted w w') = 0).
Proof.
  intros Hclaim.
  destruct (Hclaim (Scenario.conflict false) "a@b.com" "pw" None
              Scenario.fresh _ _ eq_refl eq_refl eq_refl eq_refl)
    as (w' & Hrun & _ & _ & Hcount & _).
  vm_compute in Hrun. injection Hrun as <-.
  vm_compute in Hcount. discriminate.
Qed.

Lemma login_conflict_declined_example :
  exists w',
    login (Scenario.conflict false) "a@b.com" "pw" None Scenario.fresh
    = (Resolved false, w')
    /\ stored_token w' = None
    /\ user w' = None
    /\ count is_toast (emitted Scenario.fresh w') = 0.
Proof.
  destruct (login_conflict_declined (Scenario.conflict false) "a@b.com" "pw"
              None Scenario.fresh _ _ eq_refl eq_refl eq_refl eq_refl)
    as (w' & Hrun & Htoken & Huser & _ & Htoast & _).
  exists w'. repeat split; assumption.
Defined.

Lemma login_conflict_confirmed_example :
  login (Scenario.conflict true) "a@b.com" "pw" None Scenario.fresh
  = forceLogin (Scenario.conflict true) "a@b.com" "pw" None
      (add_events Scenario.fresh
         [EvApiLogin "a@b.com" "pw";
          EvConfirm "다른 브라우저에서 로그인됨. 강제 로그인하시겠습니까?"]).
Proof.
  exact (proj1 (login_conflict_confirmed (Scenario.conflict true)
                  "a@b.com" "pw" None Scenario.fresh _ _
                  eq_refl eq_refl eq_refl eq_refl)).
Defined.

Lemma register_failure_routing_example :
  exists w',
    register Scenario.declining Scenario.carol (Some Scenario.on_message)
             (Some DispatchFormErrors) Scenario.fresh
    = (Resolved false, w')
    /\ emitted Scenario.fresh w' =
         [EvApiRegister (build_formData Scenario.carol);
          EvOnMessage Scenario.on_message "nicknameError" "nickname taken";
          EvToast ToastError "nickname taken"].
Proof.
  destruct (register_failure_routing Scenario.declining Scenario.carol
              Scenario.on_message DispatchFormErrors Scenario.fresh _ _ _
              (declared_failure Scenario.declining Scenario.fresh
                 (build_formData Scenario.carol) Scenario.nickname_taken
                 eq_refl eq_refl))
    as (r & w' & Hrun & _ & Hmessage & Hnormal).
  exists w'. split.
  - destruct (Hnormal (fun _ _ _ _ _ => eq_refl)) as [Hr _].
    rewrite Hr in Hrun. exact Hrun.
  - exact (proj2 (proj2 (Hmessage "nickname taken" eq_refl eq_refl
                           ltac:(discriminate)))
             (fun _ _ _ _ _ => eq_refl)).
Defined.

(** C6 as stated fails: a message callback that throws an error carrying
    a response with a message is invoked a second time, from the catch
    block. *)
Lemma register_message_callback_invoked_twice :
  ~ (forall env form onMessage dispatch (w : World)
            errors message fallback text,
       RegisterFailure env w (build_formData form) errors message fallback ->
       errors = None ->
       message = Some text ->
       text <> "" ->
       count is_onMessage
         (emitted w
            (register env form (Some onMessage) (Some dispatch) w).2) = 1).
Proof.
  intros Hclaim.
  specialize (Hclaim
                (Scenario.with_throwing_callbacks Scenario.declining
                   Scenario.echo_error)
                Scenario.carol Scenario.on_message DispatchFormErrors
                Scenario.fresh _ _ _ "nickname taken"
                (declared_failure
                   (Scenario.with_throwing_callbacks Scenario.declining
                      Scenario.echo_error)
                   Scenario.fresh
                   (build_formData Scenario.carol) Scenario.nickname_taken
                   eq_refl eq_refl)
                eq_refl eq_refl ltac:(discriminate)).
  vm_compute in Hclaim. discriminate.
Qed.

Lemma register_success_without_token_example :
  exists w',
    register Scenario.healthy Scenario.carol None None Scenario.signed_in
    = (Resolved true, w')
    /\ stored_token w' = Some "T"
    /\ user w' = Some Scenario.alice.
Proof.
  destruct (register_success_without_token Scenario.healthy Scenario.carol
              None None Scenario.signed_in _ eq_refl eq_refl eq_refl)
    as (w' & Hrun & Htoken & Huser & _).
  exists w'. repeat split; assumption.
Defined.

Lemma register_merge_preserves_example :
  exists w',
    register Scenario.invalid Scenario.carol None (Some DispatchFormErrors)
             Scenario.with_password_error
    = (Resolved false, w')
    /\ formErrors w' !! "emailError" = Some "email taken"
    /\ formErrors w' !! "passwordError" = Some "too short".
Proof.
  destruct (register_merge_preserves Scenario.invalid Scenario.carol None
              DispatchFormErrors Scenario.with_password_error _ _ _
              (transport_failure Scenario.invalid Scenario.with_password_error
                 (build_formData Scenario.carol) _ eq_refl))
    as (w' & Hrun & _ & Hnew & Hold).
  exists w'. split; [exact Hrun|]. split.
  - exact (Hnew "emailError" "email taken" eq_refl).
  - exact (eq_trans (Hold "passwordError" eq_refl) eq_refl).
Defined.



Lemma forceLogin_outcomes_example :
  forceLogin (Scenario.locked 401) "a@b.com" "pw" None Scenario.fresh
  = (Resolved false,
     add_events Scenario.fresh
       [EvApiForceLogin "a@b.com" "pw";
        EvToast ToastError "account locked"]).
Proof.
  exact (proj1 (forceLogin_outcomes (Scenario.locked 401) "a@b.com" "pw" None
                  Scenario.fresh) _ _ eq_refl eq_refl eq_refl).
Defined.

(** C8 as stated fails: a 401 that comes with a message shows that
    message, not the credential-mismatch notification. *)
Lemma forceLogin_unauthorized_shows_backend_message :
  ~ (forall env email password onSuccess (w : World) e r,
       authAPI_forceLogin env w email password = Rejected e ->
       response e = Some r ->
       status r = Some 401%Z ->
       forceLogin env email password onSuccess w
       = (Resolved false,
          add_events w
            [EvApiForceLogin email password;
             EvToast ToastError "이메일 또는 비밀번호 오류"])).
Proof.
  intros Hclaim.
  specialize (Hclaim (Scenario.locked 401) "a@b.com" "pw" None
                Scenario.fresh _ _ eq_refl eq_refl eq_refl).
  vm_compute in Hclaim. discriminate.
Qed.

Lemma logout_always_clears_example :
  exists w',
    logout Scenario.offline Scenario.signed_in = (Resolved tt, w')
    /\ stored_token w' = None
    /\ user w' = None
    /\ emitted Scenario.signed_in w' =
         [EvApiLogout;
          EvConsoleError "Logout error:" Scenario.network_error;
          EvToast ToastInfo "로그아웃 되었습니다."].
Proof.
  destruct (logout_always_clears Scenario.offline Scenario.signed_in)
    as (w' & Hrun & Htoken & Huser & _ & Hevents & _).
  exists w'. repeat split; assumption.
Defined.

Lemma updateUserFromToken_never_raises_example :
  exists w',
    updateUserFromToken Scenario.offline Scenario.signed_in
    = (Resolved tt, w')
    /\ user w' = Some Scenario.alice
    /\ emitted Scenario.signed_in w' =
         [EvGetFcmToken;
          EvConsoleError "❌ FCM 토큰 등록 실패:" Scenario.network_error].
Proof.
  destruct (updateUserFromToken_never_raises Scenario.offline
              Scenario.signed_in)
    as (w' & l & Hrun & Huser & _ & _ & Htrace & _ & _ & Hfailure).
  exists w'. split; [exact Hrun|]. split; [exact Huser|].
  rewrite (emitted_app _ _ _ Htrace).
  exact (Hfailure Scenario.network_error [EvGetFcmToken]
           (provider_fails Scenario.offline
              (published Scenario.offline Scenario.signed_in)
              Scenario.network_error eq_refl)).
Defined.

(** ** The further properties at sample collaborators *)

Lemma login_rejected_without_conflict_example :
  login Scenario.offline "a@b.com" "pw" None Scenario.fresh
  = (Resolved false,
     add_events Scenario.fresh
       [EvApiLogin "a@b.com" "pw"; EvToast ToastError "로그인 중 오류 발생"]).
Proof.
  exact (login_rejected_without_conflict Scenario.offline "a@b.com" "pw" None
           Scenario.fresh Scenario.network_error eq_refl
           ltac:(discriminate)).
Defined.

Lemma login_not_granted_example :
  login Scenario.empty_token "a@b.com" "pw" None Scenario.fresh
  = (Resolved false,
     add_events Scenario.fresh
       [EvApiLogin "a@b.com" "pw"; EvToast ToastError "로그인에 실패했습니다."]).
Proof.
  exact (login_not_granted Scenario.empty_token "a@b.com" "pw" None
           Scenario.fresh (mkLoginData true (Some "") None) eq_refl
           (or_intror eq_refl)).
Defined.

Lemma response_without_body_example :
  login Scenario.bodiless "a@b.com" "pw" None Scenario.fresh
  = (Resolved false,
     add_events Scenario.fresh
       [EvApiLogin "a@b.com" "pw"; EvToast ToastError "로그인 중 오류 발생"]).
Proof.
  exact (proj1 (response_without_body Scenario.bodiless Scenario.fresh)
           "a@b.com" "pw" None eq_refl).
Defined.

Lemma forceLogin_not_granted_example :
  forceLogin Scenario.refusing "a@b.com" "pw" None Scenario.fresh
  = (Resolved false,
     add_events Scenario.fresh
       [EvApiForceLogin "a@b.com" "pw"; EvToast ToastError "bad password"]).
Proof.
  exact (proj1 (forceLogin_not_granted Scenario.refusing "a@b.com" "pw" None
                  Scenario.fresh)
           Scenario.refused eq_refl (or_introl eq_refl)).
Defined.

Lemma true_means_signed_in_example :
  exists token,
    token <> ""
    /\ stored_token
         (login Scenario.healthy "a@b.com" "pw" None Scenario.fresh).2
       = Some token
    /\ user (login Scenario.healthy "a@b.com" "pw" None Scenario.fresh).2
       = decodeToken Scenario.healthy token.
Proof.
  exact (proj1 (true_means_signed_in Scenario.healthy "a@b.com" "pw" None
                  Scenario.fresh)
           (login Scenario.healthy "a@b.com" "pw" None Scenario.fresh).2
           eq_refl).
Defined.

Lemma session_stays_in_sync_example :
  in_sync Scenario.healthy
    (login Scenario.healthy "a@b.com" "pw" None Scenario.fresh).2.
Proof.
  exact (proj1 (session_stays_in_sync Scenario.healthy Scenario.fresh eq_refl)
           "a@b.com" "pw" None).
Defined.

Lemma register_success_with_token_example :
  exists w',
    register Scenario.welcoming Scenario.carol None None Scenario.fresh
    = (Resolved true, w')
    /\ stored_token w' = Some "T"
    /\ user w' = Some Scenario.alice.
Proof.
  destruct (register_success_with_token Scenario.welcoming Scenario.carol
              None None Scenario.fresh _ "T" eq_refl eq_refl eq_refl
              ltac:(discriminate))
    as (w2 & w' & _ & Hrun & _ & Htoken & Huser & _).
  exists w'. repeat split; assumption.
Defined.

Lemma register_failure_without_callbacks_example :
  register Scenario.declining Scenario.carol None None Scenario.fresh
  = (Resolved false,
     add_events Scenario.fresh
       [EvApiRegister (build_formData Scenario.carol);
        EvToast ToastError "nickname taken"]).
Proof.
  exact (register_failure_without_callbacks Scenario.declining Scenario.carol
           Scenario.fresh _ _ _
           (declared_failure Scenario.declining Scenario.fresh
              (build_formData Scenario.carol) Scenario.nickname_taken
              eq_refl eq_refl)).
Defined.

Lemma register_empty_errors_object_example :
  register Scenario.vague Scenario.carol (Some Scenario.on_message)
           (Some DispatchFormErrors) Scenario.with_password_error
  = (Resolved false,
     add_events Scenario.with_password_error
       [EvApiRegister (build_formData Scenario.carol);
        EvToast ToastError "failed"]).
Proof.
  exact (register_empty_errors_object Scenario.vague Scenario.carol
           Scenario.on_message DispatchFormErrors
           Scenario.with_password_error _ _
           (declared_failure Scenario.vague Scenario.with_password_error
              (build_formData Scenario.carol)
              (mkRegisterData false None (Some "failed") (Some ∅))
              eq_refl eq_refl)).
Defined.

Lemma register_merge_idempotent_example :
  exists w2,
    register Scenario.invalid Scenario.carol None (Some DispatchFormErrors)
      (register Scenario.invalid Scenario.carol None (Some DispatchFormErrors)
                Scenario.with_password_error).2
    = (Resolved false, w2)
    /\ formErrors w2
       = formErrors
           (register Scenario.invalid Scenario.carol None
                     (Some DispatchFormErrors)
                     Scenario.with_password_error).2.
Proof.
  exact (register_merge_idempotent Scenario.invalid Scenario.carol
           Scenario.carol None None DispatchFormErrors
           Scenario.with_password_error
           (register Scenario.invalid Scenario.carol None
                     (Some DispatchFormErrors)
                     Scenario.with_password_error).2
           Scenario.email_errors _ _ _ _
           (transport_failure Scenario.invalid Scenario.with_password_error
              (build_formData Scenario.carol) _ eq_refl)
           eq_refl
           (transport_failure Scenario.invalid _
              (build_formData Scenario.carol) _ eq_refl)).
Defined.

Lemma session_survives_reload_example :
  exists b w' w'',
    login Scenario.healthy "a@b.com" "pw" None Scenario.fresh
    = (Resolved b, w')
    /\ (onSuccess_returns Scenario.healthy None -> b = true)
    /\ onMount Scenario.healthy (reload w') = (Resolved tt, w'')
    /\ stored_token w'' = stored_token w'
    /\ user w'' = user w'.
Proof.
  exact (session_survives_reload Scenario.healthy "a@b.com" "pw" None
           Scenario.fresh Scenario.granted "T" eq_refl eq_refl eq_refl
           ltac:(discriminate)).
Defined.

Lemma credential_survives_example :
  is_Some
    (stored_token
       (login Scenario.offline "a@b.com" "pw" None Scenario.signed_in).2).
Proof.
  exact (proj1 (credential_survives Scenario.offline Scenario.signed_in
                  (ex_intro _ "T" eq_refl))
           "a@b.com" "pw" None).
Defined.

Lemma onSuccess_iff_signed_in_example :
  exists b w',
    login Scenario.healthy "a@b.com" "pw" (Some Scenario.on_success)
          Scenario.fresh
    = (Resolved b, w')
    /\ count is_onSuccess (emitted Scenario.fresh w') = (if b then 1 else 0).
Proof.
  exact (proj1 (onSuccess_iff_signed_in Scenario.healthy "a@b.com" "pw"
                  Scenario.on_success Scenario.fresh
                  (fun _ _ _ => eq_refl))).
Defined.

Lemma one_notification_per_call_example :
  exists b w',
    register Scenario.declining Scenario.carol (Some Scenario.on_message)
             None Scenario.fresh
    = (Resolved b, w')
    /\ count is_toast (emitted Scenario.fresh w') = 1
    /\ count is_error_toast (emitted Scenario.fresh w')
       = (if b then 0 else 1).
Proof.
  exact (proj1 (proj2 (one_notification_per_call Scenario.declining
                         Scenario.fresh))
           Scenario.carol (Some Scenario.on_message) None
           (fun _ _ _ _ _ => eq_refl)).
Defined.

Lemma login_callback_throws_example :
  exists refresh w',
    login (Scenario.with_throwing_callbacks Scenario.healthy
             Scenario.network_error)
          "a@b.com" "pw" (Some Scenario.on_success) Scenario.fresh
    = (Resolved false, w')
    /\ stored_token w' = Some "T"
    /\ user w' = Some Scenario.alice
    /\ emitted Scenario.fresh w' =
         EvApiLogin "a@b.com" "pw"
         :: refresh
            ++ [EvToast ToastSuccess "로그인 성공!";
                EvOnSuccess Scenario.on_success;
                EvToast ToastError "로그인 중 오류 발생"]
    /\ Forall (fun ev => is_push_event ev = true) refresh.
Proof.
  exact (login_callback_throws
           (Scenario.with_throwing_callbacks Scenario.healthy
              Scenario.network_error)
           "a@b.com" "pw" Scenario.on_success Scenario.fresh
           Scenario.granted "T" Scenario.network_error
           eq_refl eq_refl eq_refl ltac:(discriminate)
           (fun _ => eq_refl) ltac:(discriminate)).
Defined.

Lemma forceLogin_callback_throws_example :
  exists refresh w',
    forceLogin (Scenario.with_throwing_callbacks Scenario.healthy
                  Scenario.network_error)
               "a@b.com" "pw" (Some Scenario.on_success) Scenario.fresh
    = (Resolved false, w')
    /\ stored_token w' = Some "T"
    /\ user w' = Some Scenario.alice
    /\ emitted Scenario.fresh w' =
         EvApiForceLogin "a@b.com" "pw"
         :: refresh
            ++ [EvToast ToastSuccess "강제 로그인 성공!";
                EvOnSuccess Scenario.on_success;
                EvToast ToastError "강제 로그인 중 오류 발생"]
    /\ Forall (fun ev => is_push_event ev = true) refresh.
Proof.
  exact (forceLogin_callback_throws
           (Scenario.with_throwing_callbacks Scenario.healthy
              Scenario.network_error)
           "a@b.com" "pw" Scenario.on_success Scenario.fresh
           Scenario.granted "T" Scenario.network_error
           eq_refl eq_refl eq_refl ltac:(discriminate)
           (fun _ => eq_refl)).
Defined.

Lemma register_callback_throws_example :
  register (Scenario.with_throwing_callbacks Scenario.declining
              Scenario.network_error)
           Scenario.carol (Some Scenario.on_message) None Scenario.fresh
  = (Resolved false,
     add_events Scenario.fresh
       [EvApiRegister (build_formData Scenario.carol);
        EvOnMessage Scenario.on_message "nicknameError" "nickname taken";
        EvToast ToastError "회원가입 중 오류 발생"]).
Proof.
  exact (proj1 (register_callback_throws
                  (Scenario.with_throwing_callbacks Scenario.declining
                     Scenario.network_error)
                  Scenario.carol Scenario.on_message None Scenario.fresh
                  Scenario.network_error "nickname taken"
                  (fun _ _ _ => eq_refl) ltac:(discriminate))
           Scenario.nickname_taken eq_refl eq_refl eq_refl eq_refl eq_refl).
Defined.
